(** * prometheus_query: the Ansible module [plugins/modules/query.py]

    A shallow embedding of the module and the proofs of its specified
    behaviour.  The module asks a Prometheus server for the latest value of
    each query of a list and reports a mapping from (sanitized) query to
    value.

    Definitions:
    - [PyStr], [Sanitize] : [str.replace] and [sanitize_query];
    - [Py]                : Python values, dictionaries and exceptions;
    - [Runtime]           : what the module takes from outside (clock, HTTP
                            client and server, [float], exception texts);
    - Section [Query]     : [fetch_latest_metric_value] and [main], in a
                            state-and-exception monad;
    - Section [Vocabulary]: the words of the specification;
    - [Scripted]          : a scripted server, to run the module on concrete
                            inputs.

    Then the facts, and the properties of the specification (C1 to C10). *)

From Stdlib Require Import List String Ascii ZArith Bool Lia SpecFloat.
Import ListNotations.
Local Open Scope string_scope.

(* ================================================================== *)
(** ** Python strings *)

(** A Python [str] is modelled by its UTF-8 bytes.  The two characters the
    module looks for, [':'] and ['.'], are ASCII, and no byte of a multi-byte
    UTF-8 sequence is ASCII, so replacing them byte by byte or code point by
    code point is the same thing. *)
Module PyStr.

(** [s.replace(old, new)] for a non-empty [old], scanning left to right
    over non-overlapping occurrences.  [skip] counts the characters of an
    occurrence of [old] that are still to be dropped. *)
Fixpoint replace_from (old new s : string) (skip : nat) : string :=
  match s with
  | EmptyString => EmptyString
  | String c rest =>
      match skip with
      | S k => replace_from old new rest k
      | O =>
          if prefix old s
          then new ++ replace_from old new rest (String.length old - 1)
          else String c (replace_from old new rest 0)
      end
  end.

(** With an empty [old], Python puts [new] before every character and at
    the end. *)
Fixpoint intersperse (new s : string) : string :=
  match s with
  | EmptyString => new
  | String c rest => new ++ String c (intersperse new rest)
  end.

Definition replace (s old new : string) : string :=
  match old with
  | EmptyString => intersperse new s
  | String _ _ => replace_from old new s 0
  end.

(** Character-wise image of a string. *)
Fixpoint map (f : ascii -> ascii) (s : string) : string :=
  match s with
  | EmptyString => EmptyString
  | String c rest => String (f c) (map f rest)
  end.

Definition subst_char (a b c : ascii) : ascii :=
  if Ascii.eqb c a then b else c.

End PyStr.

(* ================================================================== *)
(** ** [sanitize_query] *)

Module Sanitize.

(** [def sanitize_query(query):
       return query.replace(":", "_").replace(".", "_")] *)
Definition sanitize_query (query : string) : string :=
  PyStr.replace (PyStr.replace query ":" "_") "." "_".

(** What the function does to one character. *)
Definition sanitize_char (c : ascii) : ascii :=
  if (Ascii.eqb c ":" || Ascii.eqb c ".")%bool then "_"%char else c.

End Sanitize.

(* ================================================================== *)
(** ** Python values and exceptions *)

Module Py.

Local Set Warnings "-register-all".

(** The exception classes that can show up while a query is processed.
    The first five are [requests.RequestException] and subclasses of it,
    the others are builtin.  All of them derive from [Exception];
    [SystemExit], which does not, is the [Exit] outcome of a computation
    (see [result] below). *)
Inductive exc_class : Type :=
| RequestException | ConnectionError | Timeout | HTTPError | JSONDecodeError
| AttributeError | KeyError | IndexError | TypeError | ValueError
| OverflowError.

(** [isinstance(e, requests.RequestException)] *)
Definition is_RequestException (c : exc_class) : bool :=
  match c with
  | RequestException | ConnectionError | Timeout | HTTPError
  | JSONDecodeError => true
  | _ => false
  end.

(** [isinstance(e, Exception)] *)
Definition is_Exception (c : exc_class) : bool := true.

(** An exception object: its class and [str(e)]. *)
Record exc : Type := Exc { exc_cls : exc_class; exc_msg : string }.

(** What [json()] can return: [None], [bool], [int], [float], [str],
    [list], and [dict] with [str] keys.  [F] is the type of floats. *)
Inductive pyval (F : Type) : Type :=
| PNone
| PBool (b : bool)
| PInt (z : Z)
| PFloat (f : F)
| PStr (s : string)
| PList (l : list (pyval F))
| PDict (d : list (string * pyval F)).

Arguments PNone {F}.
Arguments PBool {F} b.
Arguments PInt {F} z.
Arguments PFloat {F} f.
Arguments PStr {F} s.
Arguments PList {F} l.
Arguments PDict {F} d.

(** A [dict] keeps its items in insertion order. *)
Section Dict.
Context {V : Type}.

Fixpoint dict_lookup (k : string) (d : list (string * V)) : option V :=
  match d with
  | [] => None
  | (k', v) :: rest => if String.eqb k' k then Some v else dict_lookup k rest
  end.

(** [d[k] = v]: an existing key keeps its place, a new one goes last. *)
Fixpoint dict_set (k : string) (v : V) (d : list (string * V))
  : list (string * V) :=
  match d with
  | [] => [(k, v)]
  | (k', v') :: rest =>
      if String.eqb k' k then (k', v) :: rest
      else (k', v') :: dict_set k v rest
  end.

Definition dict_keys (d : list (string * V)) : list string := map fst d.
End Dict.

(** The characters (code points) of a [str] given by its UTF-8 bytes: a
    byte [10xxxxxx] continues the character before it. *)
Definition is_continuation (c : ascii) : bool :=
  match c with Ascii _ _ _ _ _ _ b6 b7 => b7 && negb b6 end.

Definition starts_with_continuation (s : string) : bool :=
  match s with
  | EmptyString => false
  | String d _ => is_continuation d
  end.

Fixpoint chars (s : string) : list string :=
  match s with
  | EmptyString => []
  | String c rest =>
      match chars rest with
      | ch :: chs =>
          if starts_with_continuation rest then String c ch :: chs
          else String c EmptyString :: ch :: chs
      | [] => [String c EmptyString]
      end
  end.

End Py.
Import Py.

(* ================================================================== *)
(** ** What the module takes from outside *)

(** The query parameters of a request, [{'query': query, 'time': end_time}]. *)
Record params : Type := Params { p_query : string; p_time : Z }.

(** A request as handed to [requests.get]. *)
Record request : Type := Request { req_url : string; req_params : params }.

(** The Python runtime, the [requests] library and the server behind it.
    The module is verified for every such environment. *)
Class Runtime : Type := {
  (** Python's [float] *)
  pyfloat : Type;
  (** [float(s)] for a [str]; [None] when it raises [ValueError] *)
  float_of_str : string -> option pyfloat;
  (** [float(n)] for an [int]; [None] when it raises [OverflowError] *)
  float_of_int : Z -> option pyfloat;
  (** [float(b)] for a [bool] *)
  float_of_bool : bool -> pyfloat;
  (** [bool(x)] for a [float] *)
  float_truthy : pyfloat -> bool;
  (** [int(x)] for the [float] that [time.time()] returns *)
  int_of_float : pyfloat -> Z;
  (** the text of a builtin error of a class raised on an operand *)
  exc_text : exc_class -> pyval pyfloat -> string;
  (** the world outside: the clock, the network, the server *)
  World : Type;
  (** [time.time()] *)
  time_time : World -> pyfloat * World;
  (** a [requests.Response] *)
  Response : Type;
  (** [requests.get(url, params=params)]: raises or returns a response *)
  requests_get : string -> params -> World -> (exc + Response) * World;
  (** [response.raise_for_status()]: [Some msg] when it raises
      [HTTPError(msg)] *)
  raise_for_status : Response -> option string;
  (** [response.json()]: raises or returns the decoded body *)
  response_json : Response -> exc + pyval pyfloat
}.

(* ================================================================== *)
(** ** The module *)

Section Query.

Context {RT : Runtime}.

Local Abbreviation value := (pyval pyfloat).

(** *** Results of the invocation *)

(** A value of [metrics_data]: a float, or the "no data" text. *)
Inductive mval : Type :=
| MFloat (f : pyfloat)
| MStr (s : string).

Definition metrics := list (string * mval).

(** What the module hands back to Ansible: [module.exit_json(changed=...,
    metrics_data=...)] or [module.fail_json(msg=...)]. *)
Inductive report : Type :=
| ExitJson (changed : bool) (metrics_data : metrics)
| FailJson (msg : string).

(** *** Computations *)

(** The state threaded through the code: the world, and the requests sent
    so far, oldest first. *)
Record state : Type := State { world : World; sent : list request }.

(** A computation returns, raises an exception (an instance of
    [Exception]), or ends the process: [exit_json] and [fail_json] print
    their report and call [sys.exit], whose [SystemExit] is not an
    [Exception] and so passes through [except Exception]. *)
Inductive result (A : Type) : Type :=
| Ret (a : A)
| Raise (e : exc)
| Exit (r : report).

Arguments Ret {A} a.
Arguments Raise {A} e.
Arguments Exit {A} r.

Definition M (A : Type) : Type := state -> result A * state.

Definition ret {A} (a : A) : M A := fun s => (Ret a, s).

Definition raise {A} (e : exc) : M A := fun s => (Raise e, s).

Definition bind {A B} (m : M A) (k : A -> M B) : M B :=
  fun s =>
    match m s with
    | (Ret a, s') => k a s'
    | (Raise e, s') => (Raise e, s')
    | (Exit r, s') => (Exit r, s')
    end.

Notation "x <- m ;; k" := (bind m (fun x => k))
  (at level 61, m at next level, right associativity).

(** A pure operation that may raise. *)
Definition lift {A} (r : exc + A) : M A :=
  match r with
  | inl e => raise e
  | inr a => ret a
  end.

(** [try: m  except C as e: handler(e)], [C] given by its instance test. *)
Definition try_except {A} (m : M A) (C : exc_class -> bool)
  (handler : exc -> M A) : M A :=
  fun s =>
    match m s with
    | (Raise e, s') => if C (exc_cls e) then handler e s' else (Raise e, s')
    | other => other
    end.

(** [for x in xs: acc = body(x, acc)] *)
Fixpoint for_each {A S} (xs : list A) (body : A -> S -> M S) (acc : S)
  : M S :=
  match xs with
  | [] => ret acc
  | x :: rest => acc' <- body x acc ;; for_each rest body acc'
  end.

(** *** The outside world as computations *)

(** [int(time.time())] *)
Definition now : M Z :=
  fun s =>
    let (t, w) := time_time (world s) in
    (Ret (int_of_float t), {| world := w; sent := sent s |}).

(** [requests.get(url, params=params)]; the request is logged. *)
Definition get (url : string) (p : params) : M Response :=
  fun s =>
    let (r, w) := requests_get url p (world s) in
    let s' := {| world := w; sent := sent s ++ [Request url p] |} in
    match r with
    | inl e => (Raise e, s')
    | inr response => (Ret response, s')
    end.

(** [response.raise_for_status()] *)
Definition check_status (response : Response) : M unit :=
  match raise_for_status response with
  | Some msg => raise (Exc HTTPError msg)
  | None => ret tt
  end.

(** [module.exit_json(changed=changed, metrics_data=metrics_data)] *)
Definition exit_json {A} (changed : bool) (metrics_data : metrics) : M A :=
  fun s => (Exit (ExitJson changed metrics_data), s).

(** [module.fail_json(msg=msg)] *)
Definition fail_json {A} (msg : string) : M A :=
  fun s => (Exit (FailJson msg), s).

(** *** Operations on Python values *)

Definition builtin_error {A} (c : exc_class) (operand : value) : exc + A :=
  inl (Exc c (exc_text c operand)).

(** [v.get(k, default)] *)
Definition py_get (v : value) (k : string) (default : value) : exc + value :=
  match v with
  | PDict d =>
      inr (match dict_lookup k d with Some x => x | None => default end)
  | _ => builtin_error AttributeError v
  end.

(** [v[i]] for a literal index [i >= 0].  A decoded JSON object has only
    [str] keys, so an [int] is never one of them. *)
Definition py_index (v : value) (i : nat) : exc + value :=
  match v with
  | PList l =>
      match nth_error l i with
      | Some x => inr x
      | None => builtin_error IndexError v
      end
  | PStr s =>
      match nth_error (chars s) i with
      | Some c => inr (PStr c)
      | None => builtin_error IndexError v
      end
  | PDict _ => builtin_error KeyError (PInt (Z.of_nat i))
  | _ => builtin_error TypeError v
  end.

(** [v[k]] for a [str] key [k] *)
Definition py_item (v : value) (k : string) : exc + value :=
  match v with
  | PDict d =>
      match dict_lookup k d with
      | Some x => inr x
      | None => builtin_error KeyError (PStr k)
      end
  | _ => builtin_error TypeError v
  end.

(** [bool(v)], the test of [if v:] *)
Definition py_truthy (v : value) : bool :=
  match v with
  | PNone => false
  | PBool b => b
  | PInt z => negb (Z.eqb z 0)
  | PFloat f => float_truthy f
  | PStr s => negb (String.eqb s EmptyString)
  | PList l => match l with [] => false | _ :: _ => true end
  | PDict d => match d with [] => false | _ :: _ => true end
  end.

(** [float(v)] *)
Definition py_float (v : value) : exc + pyfloat :=
  match v with
  | PFloat f => inr f
  | PBool b => inr (float_of_bool b)
  | PInt z =>
      match float_of_int z with
      | Some f => inr f
      | None => builtin_error OverflowError v
      end
  | PStr s =>
      match float_of_str s with
      | Some f => inr f
      | None => builtin_error ValueError v
      end
  | _ => builtin_error TypeError v
  end.

(** *** The code of [query.py] *)

Definition PROMETHEUS_QUERY_API : string := "/api/v1/query".

(** [[
def fetch_latest_metric_value(query, end_time, prometheus_url):
  params = {'query': query, 'time': end_time}
  try:
      response = requests.get(f"{prometheus_url}{PROMETHEUS_QUERY_API}", params=params)
      response.raise_for_status()
      data = response.json()
      metric_data = data.get('data', {}).get('result', [])
      if metric_data:
          return float(metric_data[0]['value'][1])
      return None
  except requests.RequestException as e:
      raise e
    ]]
    The return value is a float or [None]. *)
Definition fetch_latest_metric_value
  (query : string) (end_time : Z) (prometheus_url : string)
  : M (option pyfloat) :=
  let params := {| p_query := query; p_time := end_time |} in
  try_except
    (response <- get (prometheus_url ++ PROMETHEUS_QUERY_API) params ;;
     _ <- check_status response ;;
     data <- lift (response_json response) ;;
     inner <- lift (py_get data "data" (PDict [])) ;;
     metric_data <- lift (py_get inner "result" (PList [])) ;;
     if py_truthy metric_data then
       first <- lift (py_index metric_data 0) ;;
       pair <- lift (py_item first "value") ;;
       sample <- lift (py_index pair 1) ;;
       f <- lift (py_float sample) ;;
       ret (Some f)
     else ret None)
    is_RequestException
    (fun e => raise e).

Definition NO_DATA : string :=
  "No data available for the specified time range.".

(** The two conditional expressions of the loop body, both on
    [latest_value is not None]. *)
Definition result_key (query : string) (latest_value : option pyfloat)
  : string :=
  match latest_value with
  | Some _ => Sanitize.sanitize_query query
  | None => query
  end.

Definition result_value (latest_value : option pyfloat) : mval :=
  match latest_value with
  | Some f => MFloat f
  | None => MStr NO_DATA
  end.

(** The body of the loop of [main]:
    [[
      try:
          latest_value = fetch_latest_metric_value(query, end_time, prometheus_url)
          key = sanitize_query(query) if latest_value is not None else query
          metrics_data[key] = latest_value if latest_value is not None else "No data available for the specified time range."
      except Exception as e:
          module.fail_json(msg=str(e))
    ]] *)
Definition process_query (prometheus_url : string) (end_time : Z)
  (query : string) (metrics_data : metrics) : M metrics :=
  try_except
    (latest_value <-
       fetch_latest_metric_value query end_time prometheus_url ;;
     let key := result_key query latest_value in
     ret (dict_set key (result_value latest_value) metrics_data))
    is_Exception
    (fun e => fail_json (exc_msg e)).

(** [main], with [module.params['prometheus_url']] and
    [module.params['queries']] as arguments:
    [[
  current_time = int(time.time())
  end_time = current_time
  metrics_data = {}
  for query in queries:
      ...
  module.exit_json(changed=False, metrics_data=metrics_data)
    ]] *)
Definition main (prometheus_url : string) (queries : list string) : M unit :=
  current_time <- now ;;
  let end_time := current_time in
  metrics_data <-
    for_each queries (process_query prometheus_url end_time) [] ;;
  exit_json false metrics_data.

(** One invocation of the module, from a world in which nothing has been
    sent yet. *)
Definition invoke (prometheus_url : string) (queries : list string)
  (w : World) : result unit * state :=
  main prometheus_url queries {| world := w; sent := [] |}.

End Query.

Arguments Ret {RT A} a.
Arguments Raise {RT A} e.
Arguments Exit {RT A} r.

Notation "x <- m ;; k" := (bind m (fun x => k))
  (at level 61, m at next level, right associativity).

(* ================================================================== *)
(** ** Vocabulary of the specification *)

Section Vocabulary.

Context {RT : Runtime}.

Local Abbreviation value := (pyval pyfloat).

(** The [data.result] array of a decoded response body, when the body has
    one. *)
Definition result_array (data : value) : option (list value) :=
  match data with
  | PDict top =>
      match dict_lookup "data" top with
      | Some (PDict inner) =>
          match dict_lookup "result" inner with
          | Some (PList entries) => Some entries
          | _ => None
          end
      | _ => None
      end
  | _ => None
  end.

(** The two-element [[timestamp, value]] pair of a result entry. *)
Definition value_pair (entry : value) : option (value * value) :=
  match entry with
  | PDict fields =>
      match dict_lookup "value" fields with
      | Some (PList [timestamp; sample]) => Some (timestamp, sample)
      | _ => None
      end
  | _ => None
  end.

(** What [fetch_latest_metric_value] does with the decoded body, from
    [data.get('data', {})] on. *)
Definition read_sample (data : value) : M (option pyfloat) :=
  inner <- lift (py_get data "data" (PDict [])) ;;
  metric_data <- lift (py_get inner "result" (PList [])) ;;
  if py_truthy metric_data then
    first <- lift (py_index metric_data 0) ;;
    pair <- lift (py_item first "value") ;;
    sample <- lift (py_index pair 1) ;;
    f <- lift (py_float sample) ;;
    ret (Some f)
  else ret None.

(** The request the module sends for a query. *)
Definition request_for (prometheus_url : string) (end_time : Z)
  (query : string) : request :=
  {| req_url := prometheus_url ++ PROMETHEUS_QUERY_API;
     req_params := {| p_query := query; p_time := end_time |} |}.

(** The state after the request for [query] went out and the world moved
    on to [w']. *)
Definition after_request (prometheus_url : string) (end_time : Z)
  (query : string) (s : state) (w' : World) : state :=
  {| world := w';
     sent := sent s ++ [request_for prometheus_url end_time query] |}.

(** In the world [w] the server answers the request for [query] with a
    success status and the decoded body [data]. *)
Definition answers (prometheus_url : string) (end_time : Z) (query : string)
  (w : World) (data : value) (w' : World) : Prop :=
  exists response,
    requests_get (prometheus_url ++ PROMETHEUS_QUERY_API)
      {| p_query := query; p_time := end_time |} w = (inr response, w')
    /\ raise_for_status response = None
    /\ response_json response = inr data.

(** In the world [w] the request for [query] ends in the transport error
    [e]: [requests.get] raises a [RequestException] (a connection error, a
    timeout, ...), or the status of the response makes
    [raise_for_status] raise. *)
Inductive transport_error (prometheus_url : string) (end_time : Z)
  (query : string) (w : World) : exc -> World -> Prop :=
| get_raises e w' :
    requests_get (prometheus_url ++ PROMETHEUS_QUERY_API)
      {| p_query := query; p_time := end_time |} w = (inl e, w') ->
    is_RequestException (exc_cls e) = true ->
    transport_error prometheus_url end_time query w e w'
| status_raises response msg w' :
    requests_get (prometheus_url ++ PROMETHEUS_QUERY_API)
      {| p_query := query; p_time := end_time |} w = (inr response, w') ->
    raise_for_status response = Some msg ->
    transport_error prometheus_url end_time query w (Exc HTTPError msg) w'.

(** An invocation on [done ++ ...] from the world [w] has read the clock,
    got [end_time], and has processed the queries [done] without a failure:
    it stands in state [s] with [metrics_data] accumulated. *)
Definition processed (prometheus_url : string) (done : list string)
  (w : World) (end_time : Z) (metrics_data : metrics) (s : state) : Prop :=
  exists s0,
    now {| world := w; sent := [] |} = (Ret end_time, s0)
    /\ for_each done (process_query prometheus_url end_time) [] s0
       = (Ret metrics_data, s).

(** The entry a query contributes, given what was fetched for it. *)
Definition entry_of (query : string) (latest_value : option pyfloat)
  : string * mval :=
  (result_key query latest_value, result_value latest_value).

(** No two queries of the list collide: their sanitized forms differ, and
    neither is the sanitized form of the other. *)
Definition distinct_keys (q q' : string) : bool :=
  negb (String.eqb (Sanitize.sanitize_query q) (Sanitize.sanitize_query q'))
  && negb (String.eqb q (Sanitize.sanitize_query q'))
  && negb (String.eqb q' (Sanitize.sanitize_query q)).

Fixpoint collision_free (queries : list string) : bool :=
  match queries with
  | [] => true
  | q :: rest => forallb (distinct_keys q) rest && collision_free rest
  end.

End Vocabulary.

(* ================================================================== *)
(** ** Vocabulary for whole batches *)

Section BatchVocabulary.

Context {RT : Runtime}.

Local Abbreviation value := (pyval pyfloat).

(** A JSON object, as opposed to any other decoded value. *)
Definition is_object (v : value) : bool :=
  match v with
  | PDict _ => true
  | _ => false
  end.

(** A list whose first element is a JSON object. *)
Definition starts_with_object (v : value) : bool :=
  match v with
  | PList (PDict _ :: _) => true
  | _ => false
  end.

(** The fetches of the queries of a batch, one after the other from the
    state [s], all returned: [latest] are the values they returned, in
    order, and [s'] is the state after the last one. *)
Inductive fetched_all (prometheus_url : string) (end_time : Z)
  : list string -> state -> list (option pyfloat) -> state -> Prop :=
| fetched_none s : fetched_all prometheus_url end_time [] s [] s
| fetched_next q queries s latest_value s1 latest s' :
    fetch_latest_metric_value q end_time prometheus_url s
    = (Ret latest_value, s1) ->
    fetched_all prometheus_url end_time queries s1 latest s' ->
    fetched_all prometheus_url end_time (q :: queries) s
      (latest_value :: latest) s'.

(** The entries of the queries of a batch, given what was fetched for
    each. *)
Definition entries_of (queries : list string)
  (latest : list (option pyfloat)) : list (string * mval) :=
  map (fun qr => entry_of (fst qr) (snd qr)) (combine queries latest).

(** The mapping after the assignments [metrics_data[key] = value] for the
    given entries, in order. *)
Definition record_all (metrics_data : metrics)
  (entries : list (string * mval)) : metrics :=
  fold_left (fun acc kv => dict_set (fst kv) (snd kv) acc) entries
    metrics_data.

End BatchVocabulary.

(* ================================================================== *)
(** ** A scripted server *)

(** An environment to run the module in: floats are IEEE binary64, the
    server's answers are scripted, one per request, and the clock moves on
    each time it is read. *)
Module Scripted.

Definition prec : Z := 53.
Definition emax : Z := 1024.

(** The float nearest to an integer (ties to even). *)
Definition of_Z (z : Z) (negative_zero : bool) : spec_float :=
  binary_normalize prec emax z 0 negative_zero.

(** [float(n)] raises [OverflowError] when [n] is beyond the finite floats. *)
Definition int_to_float (z : Z) : option spec_float :=
  match of_Z z false with
  | S754_infinity _ => None
  | f => Some f
  end.

Definition digit (c : ascii) : option Z :=
  let n := Z.of_nat (nat_of_ascii c) in
  if ((48 <=? n) && (n <=? 57))%Z then Some (n - 48)%Z else None.

Fixpoint digits (s : string) (acc : Z) : option Z :=
  match s with
  | EmptyString => Some acc
  | String c rest =>
      match digit c with
      | Some d => digits rest (10 * acc + d)%Z
      | None => None
      end
  end.

(** [float(s)] on integer literals with an optional sign, which is all the
    scripts below need; every other text counts as not a number. *)
Definition str_to_float (s : string) : option spec_float :=
  let (negative, body) :=
    match s with
    | String "-" rest => (true, rest)
    | String "+" rest => (false, rest)
    | _ => (false, s)
    end in
  match body with
  | EmptyString => None
  | _ =>
      match digits body 0 with
      | Some n => Some (of_Z (if negative then - n else n) negative)
      | None => None
      end
  end.

Definition nonzero (f : spec_float) : bool :=
  match f with
  | S754_zero _ => false
  | _ => true
  end.

(** [int(x)]: truncation towards zero. *)
Definition truncate (f : spec_float) : Z :=
  match f with
  | S754_finite s m e =>
      let n := Z.shiftl (Zpos m) e in
      if s then (- n)%Z else n
  | _ => 0%Z
  end.

Definition class_name (c : exc_class) : string :=
  match c with
  | RequestException => "RequestException"
  | ConnectionError => "ConnectionError"
  | Timeout => "Timeout"
  | HTTPError => "HTTPError"
  | JSONDecodeError => "JSONDecodeError"
  | AttributeError => "AttributeError"
  | KeyError => "KeyError"
  | IndexError => "IndexError"
  | TypeError => "TypeError"
  | ValueError => "ValueError"
  | OverflowError => "OverflowError"
  end.

(** A reply: the status code and what [json()] gives. *)
Record reply : Type :=
  Reply { status_code : Z; body : exc + pyval spec_float }.

(** The server: the clock (seconds since the epoch) and the answers the
    server will give, in order. *)
Record server : Type :=
  Server { clock : Z; script : list (exc + reply) }.

Definition read_clock (w : server) : spec_float * server :=
  (of_Z (clock w) false, {| clock := clock w + 1; script := script w |}).

(** With the script used up the server is gone. *)
Definition answer (url : string) (p : params) (w : server)
  : (exc + reply) * server :=
  match script w with
  | [] => (inl (Exc ConnectionError "connection refused"), w)
  | r :: rest => (r, {| clock := clock w; script := rest |})
  end.

(** An error status is a 4xx or a 5xx one. *)
Definition error_status (r : reply) : option string :=
  if ((400 <=? status_code r) && (status_code r <? 600))%Z
  then Some "HTTP error"
  else None.

#[local] Instance runtime : Runtime := {|
  pyfloat := spec_float;
  float_of_str := str_to_float;
  float_of_int := int_to_float;
  float_of_bool := fun b => of_Z (Z.b2z b) false;
  float_truthy := nonzero;
  int_of_float := truncate;
  exc_text := fun c _ => class_name c;
  World := server;
  time_time := read_clock;
  Response := reply;
  requests_get := answer;
  raise_for_status := error_status;
  response_json := body
|}.

(** A [200] answer with the given body. *)
Definition ok (v : pyval spec_float) : exc + reply :=
  inr {| status_code := 200; body := inr v |}.

(** [{"data": {"result": [{"value": [ts, sample]}]}}] *)
Definition one_sample (ts : Z) (sample : string) : pyval spec_float :=
  PDict [("status", PStr "success");
         ("data", PDict [("resultType", PStr "vector");
                         ("result",
                          PList [PDict [("metric", PDict []);
                                        ("value", PList [PInt ts; PStr sample])]])])].

(** [{"data": {"result": []}}] *)
Definition no_sample : pyval spec_float :=
  PDict [("status", PStr "success");
         ("data", PDict [("resultType", PStr "vector"); ("result", PList [])])].

(** A reply with a given status and an empty result. *)
Definition status (code : Z) : exc + reply :=
  inr {| status_code := code; body := inr no_sample |}.

(** [{"data": {"result": [{"metric": {}}]}}]: an entry without ["value"]. *)
Definition no_value : pyval spec_float :=
  PDict [("data", PDict [("result", PList [PDict [("metric", PDict [])]])])].

(** [{"data": {"result": [{"value": [ts]}]}}]: a pair cut short. *)
Definition short_pair (ts : Z) : pyval spec_float :=
  PDict [("data", PDict [("result", PList [PDict [("value", PList [PInt ts])]])])].

(** [{"status": "success"}]: a body without ["data"]. *)
Definition bare_success : pyval spec_float :=
  PDict [("status", PStr "success")].

Definition url : string := "http://prometheus-server:9090".

Definition epoch : Z := 1700000000.

(** The server at the start of an invocation, and once the clock has been
    read. *)
Definition boot (answers : list (exc + reply)) : server :=
  {| clock := epoch; script := answers |}.

Definition running (answers : list (exc + reply)) : server :=
  {| clock := epoch + 1; script := answers |}.

(** The request for a query at [epoch]. *)
Definition asked (query : string) : request :=
  {| req_url := "http://prometheus-server:9090/api/v1/query";
     req_params := {| p_query := query; p_time := epoch |} |}.

(** The state of an invocation: the server as it stands and the requests
    sent so far. *)
Definition standing (w : server) (log : list request) : @state runtime :=
  @State runtime w log.

(** The floats 1.0 and 0.0. *)
Definition one : spec_float := S754_finite false 4503599627370496 (-52).

Definition zero : spec_float := S754_zero false.

(** [{"data": {"result": result}}] for any [result]. *)
Definition with_result (result : pyval spec_float) : pyval spec_float :=
  PDict [("status", PStr "success"); ("data", PDict [("result", result)])].

(** A result entry with the given ["value"]. *)
Definition entry_with (v : pyval spec_float) : pyval spec_float :=
  PDict [("metric", PDict []); ("value", v)].

(** The float 2.5. *)
Definition two_and_a_half : spec_float :=
  S754_finite false 5629499534213120 (-51).

End Scripted.

(* ================================================================== *)
(** ** Facts about strings *)

Module PyStrFacts.
Import PyStr.

Lemma map_length f s : String.length (map f s) = String.length s.
Proof. induction s as [|c s IH]; simpl; [reflexivity | now rewrite IH]. Qed.

Lemma map_get f s n : String.get n (map f s) = option_map f (String.get n s).
Proof.
  revert n; induction s as [|c s IH]; intros [|n]; simpl; auto.
Qed.

Lemma map_map f g s : map f (map g s) = map (fun c => f (g c)) s.
Proof. induction s as [|c s IH]; simpl; [reflexivity | now rewrite IH]. Qed.

Lemma map_ext f g s : (forall c, f c = g c) -> map f s = map g s.
Proof.
  intros E; induction s as [|c s IH]; simpl; [reflexivity | now rewrite E, IH].
Qed.

Lemma prefix_empty s : prefix EmptyString s = true.
Proof. destruct s; reflexivity. Qed.

(** Replacing a one-character pattern by one character is a map. *)
Lemma replace_char a b s :
  replace s (String a EmptyString) (String b EmptyString)
  = map (subst_char a b) s.
Proof.
  unfold replace.
  induction s as [|c s IH]; [reflexivity|].
  cbn [replace_from map String.length Nat.sub prefix].
  rewrite prefix_empty, IH.
  change (subst_char a b c) with (if Ascii.eqb c a then b else c).
  destruct (ascii_dec a c) as [->|N].
  - now rewrite Ascii.eqb_refl.
  - destruct (Ascii.eqb c a) eqn:E; [|reflexivity].
    apply Ascii.eqb_eq in E; now elim N.
Qed.

End PyStrFacts.

(* ================================================================== *)
(** ** Facts about [sanitize_query] *)

Module SanitizeFacts.
Import Sanitize.

Lemma sanitize_query_map q : sanitize_query q = PyStr.map sanitize_char q.
Proof.
  unfold sanitize_query.
  rewrite !PyStrFacts.replace_char, PyStrFacts.map_map.
  apply PyStrFacts.map_ext; intros c.
  unfold PyStr.subst_char, sanitize_char.
  destruct (Ascii.eqb c ":") eqn:E1; simpl; [reflexivity|].
  reflexivity.
Qed.

Lemma sanitize_char_idem c : sanitize_char (sanitize_char c) = sanitize_char c.
Proof.
  unfold sanitize_char.
  destruct (Ascii.eqb c ":" || Ascii.eqb c ".")%bool eqn:E; [reflexivity|].
  now rewrite E.
Qed.

Lemma sanitize_query_idem q : sanitize_query (sanitize_query q) = sanitize_query q.
Proof.
  rewrite !sanitize_query_map, PyStrFacts.map_map.
  apply PyStrFacts.map_ext, sanitize_char_idem.
Qed.

End SanitizeFacts.

(* ================================================================== *)
(** ** Facts about computations *)

Section MonadFacts.

Context {RT : Runtime}.

Lemma bind_Ret {A B} (m : M A) (k : A -> M B) s a s' :
  m s = (Ret a, s') -> bind m k s = k a s'.
Proof. intros H; unfold bind; now rewrite H. Qed.

Lemma bind_Raise {A B} (m : M A) (k : A -> M B) s e s' :
  m s = (Raise e, s') -> bind m k s = (Raise e, s').
Proof. intros H; unfold bind; now rewrite H. Qed.

Lemma bind_Exit {A B} (m : M A) (k : A -> M B) s r s' :
  m s = (Exit r, s') -> bind m k s = (Exit r, s').
Proof. intros H; unfold bind; now rewrite H. Qed.

(** What a [bind] that returned went through. *)
Lemma bind_Ret_inv {A B} (m : M A) (k : A -> M B) s b s' :
  bind m k s = (Ret b, s') ->
  exists a s1, m s = (Ret a, s1) /\ k a s1 = (Ret b, s').
Proof.
  unfold bind; destruct (m s) as [[a|e|r] s1]; intros H; try discriminate.
  now exists a, s1.
Qed.

(** A handler that raises what it caught does nothing. *)
Lemma try_except_reraise {A} (m : M A) C s :
  try_except m C (fun e => raise e) s = m s.
Proof.
  unfold try_except, raise.
  destruct (m s) as [[a|e|r] s']; [reflexivity| |reflexivity].
  now destruct (C (exc_cls e)).
Qed.

(** A computation that leaves the state alone. *)
Definition stateless {A} (m : M A) : Prop :=
  forall s r s', m s = (r, s') -> s' = s.

Lemma stateless_ret {A} (a : A) : stateless (ret a).
Proof. intros s r s' H; now inversion H. Qed.

Lemma stateless_raise {A} e : stateless (@raise _ A e).
Proof. intros s r s' H; now inversion H. Qed.

Lemma stateless_lift {A} (x : exc + A) : stateless (lift x).
Proof.
  destruct x; [apply stateless_raise | apply stateless_ret].
Qed.

Lemma stateless_bind {A B} (m : M A) (k : A -> M B) :
  stateless m -> (forall a, stateless (k a)) -> stateless (bind m k).
Proof.
  intros Hm Hk s r s' H. unfold bind in H.
  destruct (m s) as [[a|e|x] s1] eqn:E; apply Hm in E; subst s1.
  - now apply Hk in H.
  - now inversion H.
  - now inversion H.
Qed.

Lemma stateless_exit_json {A} changed md : stateless (@exit_json _ A changed md).
Proof. intros s r s' H; now inversion H. Qed.

Lemma stateless_fail_json {A} msg : stateless (@fail_json _ A msg).
Proof. intros s r s' H; now inversion H. Qed.

Lemma stateless_read_sample data : stateless (read_sample data).
Proof.
  unfold read_sample.
  repeat first
    [ apply stateless_bind; [apply stateless_lift | intros ?]
    | apply stateless_ret
    | match goal with |- stateless (if ?b then _ else _) => destruct b end ].
Qed.

(** A computation that never ends the process. *)
Definition stays {A} (m : M A) : Prop :=
  forall s r s', m s <> (Exit r, s').

Lemma stays_ret {A} (a : A) : stays (ret a).
Proof. intros s r s' H; discriminate. Qed.

Lemma stays_raise {A} e : stays (@raise _ A e).
Proof. intros s r s' H; discriminate. Qed.

Lemma stays_lift {A} (x : exc + A) : stays (lift x).
Proof. destruct x; [apply stays_raise | apply stays_ret]. Qed.

Lemma stays_bind {A B} (m : M A) (k : A -> M B) :
  stays m -> (forall a, stays (k a)) -> stays (bind m k).
Proof.
  intros Hm Hk s r s' H. unfold bind in H.
  destruct (m s) as [[a|e|x] s1] eqn:E.
  - now apply Hk in H.
  - discriminate.
  - now apply Hm in E.
Qed.

Lemma stays_read_sample data : stays (read_sample data).
Proof.
  unfold read_sample.
  repeat first
    [ apply stays_bind; [apply stays_lift | intros ?]
    | apply stays_ret
    | match goal with |- stays (if ?b then _ else _) => destruct b end ].
Qed.

Lemma for_each_app {A S} (xs ys : list A) (body : A -> S -> M S) acc s :
  for_each (xs ++ ys) body acc s
  = match for_each xs body acc s with
    | (Ret acc', s') => for_each ys body acc' s'
    | other => other
    end.
Proof.
  revert acc s; induction xs as [|x xs IH]; intros acc s; simpl.
  - reflexivity.
  - unfold bind. destruct (body x acc s) as [[a|e|r] s1]; auto.
Qed.

End MonadFacts.

(* ================================================================== *)
(** ** Facts about dictionaries *)

Section DictFacts.

Context {V : Type}.

Lemma dict_lookup_set_same (k : string) (v : V) d :
  dict_lookup k (dict_set k v d) = Some v.
Proof.
  induction d as [|[k' v'] d IH]; simpl.
  - now rewrite String.eqb_refl.
  - destruct (String.eqb k' k) eqn:E; simpl; now rewrite E.
Qed.

Lemma dict_set_fresh (k : string) (v : V) d :
  ~ In k (dict_keys d) -> dict_set k v d = (d ++ [(k, v)])%list.
Proof.
  induction d as [|[k' v'] d IH]; simpl; intros N; [reflexivity|].
  destruct (String.eqb k' k) eqn:E.
  - apply String.eqb_eq in E. elim N; now left.
  - rewrite IH; [reflexivity | intros I; apply N; now right].
Qed.

Lemma dict_keys_app (d1 d2 : list (string * V)) :
  dict_keys (d1 ++ d2)%list = (dict_keys d1 ++ dict_keys d2)%list.
Proof. apply map_app. Qed.

End DictFacts.

(* ================================================================== *)
(** ** Facts about [fetch_latest_metric_value] *)

Section FetchFacts.

Context {RT : Runtime}.

Local Abbreviation value := (pyval pyfloat).

(** The [except requests.RequestException] clause re-raises, so the
    function is its [try] body. *)
Lemma fetch_body query end_time prometheus_url s :
  fetch_latest_metric_value query end_time prometheus_url s
  = (response <-
       get (prometheus_url ++ PROMETHEUS_QUERY_API)
         {| p_query := query; p_time := end_time |} ;;
     _ <- check_status response ;;
     data <- lift (response_json response) ;;
     read_sample data) s.
Proof.
  unfold fetch_latest_metric_value. now rewrite try_except_reraise.
Qed.

(** A successful answer: the function reads the sample off the body. *)
Lemma fetch_answered url t q s data w' :
  answers url t q (world s) data w' ->
  fetch_latest_metric_value q t url s
  = read_sample data (after_request url t q s w').
Proof.
  intros (response & Hget & Hstatus & Hjson).
  rewrite fetch_body. unfold bind at 1, get. rewrite Hget.
  unfold bind at 1, check_status. rewrite Hstatus. cbn [ret].
  unfold bind at 1. rewrite Hjson. reflexivity.
Qed.

(** A transport error: the function raises it. *)
Lemma fetch_transport_error url t q s e w' :
  transport_error url t q (world s) e w' ->
  fetch_latest_metric_value q t url s
  = (Raise e, after_request url t q s w').
Proof.
  intros H. rewrite fetch_body.
  destruct H as [e w' Hget _ | response msg w' Hget Hstatus].
  - unfold bind at 1, get. now rewrite Hget.
  - unfold bind at 1, get. rewrite Hget.
    unfold bind at 1, check_status. now rewrite Hstatus.
Qed.

(** Whatever happens, exactly one request has gone out. *)
Lemma fetch_state url t q s r s' :
  fetch_latest_metric_value q t url s = (r, s') ->
  exists w', s' = after_request url t q s w'.
Proof.
  rewrite fetch_body. unfold bind at 1, get.
  destruct (requests_get _ _ (world s)) as [[e|response] w'] eqn:Hget.
  - intros H; inversion H; now exists w'.
  - unfold bind at 1, check_status.
    destruct (raise_for_status response) as [msg|].
    + intros H; inversion H; now exists w'.
    + cbn [ret]. unfold bind at 1.
      destruct (response_json response) as [e|data]; cbn [lift raise ret].
      * intros H; inversion H; now exists w'.
      * intros H. apply stateless_read_sample in H. now exists w'.
Qed.

(** The function never ends the process itself. *)
Lemma fetch_stays url t q : stays (fetch_latest_metric_value q t url).
Proof.
  intros s r s'. rewrite fetch_body. unfold bind at 1, get.
  destruct (requests_get _ _ (world s)) as [[e|response] w'].
  - discriminate.
  - unfold bind at 1, check_status.
    destruct (raise_for_status response) as [msg|]; [discriminate|].
    cbn [ret]. unfold bind at 1.
    destruct (response_json response) as [e|data]; cbn [lift raise ret].
    + discriminate.
    + apply stays_read_sample.
Qed.

(** Reading the body, by the shape of the body. *)
Lemma result_array_get (data : value) entries :
  result_array data = Some entries ->
  exists inner,
    py_get data "data" (PDict []) = inr inner
    /\ py_get inner "result" (PList []) = inr (PList entries).
Proof.
  unfold result_array. destruct data as [| | | | |l|top]; try discriminate.
  destruct (dict_lookup "data" top) as [[| | | | |l|inner]|] eqn:E1;
    try discriminate.
  destruct (dict_lookup "result" inner) as [[| | | | |l|d]|] eqn:E2;
    try discriminate.
  intros H; inversion H; subst l.
  exists (PDict inner). cbn [py_get]. now rewrite E1, E2.
Qed.

Lemma read_sample_found data first others timestamp sample f s :
  result_array data = Some (first :: others) ->
  value_pair first = Some (timestamp, sample) ->
  py_float sample = inr f ->
  read_sample data s = (Ret (Some f), s).
Proof.
  intros Harr Hpair Hfloat.
  destruct (result_array_get _ _ Harr) as (inner & H1 & H2).
  unfold value_pair in Hpair.
  destruct first as [| | | | |l|fields]; try discriminate.
  destruct (dict_lookup "value" fields) as [[| | | | |[|a [|b [|c l]]]|d]|] eqn:E;
    try discriminate.
  inversion Hpair; subst a b.
  unfold read_sample, bind.
  rewrite H1; cbn [lift ret]. rewrite H2; cbn [lift ret py_truthy py_index nth_error].
  cbn [py_item]. rewrite E; cbn [lift ret py_index nth_error].
  rewrite Hfloat. reflexivity.
Qed.

Lemma read_sample_empty data s :
  result_array data = Some [] ->
  read_sample data s = (Ret None, s).
Proof.
  intros Harr.
  destruct (result_array_get _ _ Harr) as (inner & H1 & H2).
  unfold read_sample, bind.
  rewrite H1; cbn [lift ret]. now rewrite H2.
Qed.

(** A body that is an object without ["data"], or whose ["data"] is an
    object without ["result"], reads as no data: [get] falls back on its
    default. *)
Lemma read_sample_no_data_field top s :
  dict_lookup "data" top = None ->
  read_sample (PDict top) s = (Ret None, s).
Proof.
  intros H. unfold read_sample, bind. cbn [py_get]. now rewrite H.
Qed.

Lemma read_sample_no_result_field top inner s :
  dict_lookup "data" top = Some (PDict inner) ->
  dict_lookup "result" inner = None ->
  read_sample (PDict top) s = (Ret None, s).
Proof.
  intros H1 H2. unfold read_sample, bind. cbn [py_get].
  rewrite H1. cbn [lift ret py_get]. now rewrite H2.
Qed.

(** A first entry without ["value"]: [KeyError]. *)
Lemma read_sample_no_value data fields others s :
  result_array data = Some (PDict fields :: others) ->
  dict_lookup "value" fields = None ->
  read_sample data s
  = (Raise (Exc KeyError (exc_text KeyError (PStr "value"))), s).
Proof.
  intros Harr Hval.
  destruct (result_array_get _ _ Harr) as (inner & H1 & H2).
  unfold read_sample, bind.
  rewrite H1; cbn [lift ret]. rewrite H2; cbn [lift ret py_truthy py_index nth_error].
  cbn [py_item]. now rewrite Hval.
Qed.

(** A ["value"] list with fewer than two elements: [IndexError]. *)
Lemma read_sample_short_pair data fields others pair s :
  result_array data = Some (PDict fields :: others) ->
  dict_lookup "value" fields = Some (PList pair) ->
  (List.length pair < 2)%nat ->
  read_sample data s
  = (Raise (Exc IndexError (exc_text IndexError (PList pair))), s).
Proof.
  intros Harr Hval Hlen.
  destruct (result_array_get _ _ Harr) as (inner & H1 & H2).
  unfold read_sample, bind.
  rewrite H1; cbn [lift ret]. rewrite H2; cbn [lift ret py_truthy py_index nth_error].
  cbn [py_item]. rewrite Hval; cbn [lift ret py_index].
  destruct pair as [|a [|b l]]; cbn in Hlen |- *; try reflexivity; lia.
Qed.

End FetchFacts.

(* ================================================================== *)
(** ** Facts about the loop of [main] *)

Section MainFacts.

Context {RT : Runtime}.

(** The loop body, by what the fetch did. *)
Lemma process_query_returned url t q md s latest s' :
  fetch_latest_metric_value q t url s = (Ret latest, s') ->
  process_query url t q md s
  = (Ret (dict_set (result_key q latest) (result_value latest) md), s').
Proof.
  intros H. unfold process_query, try_except.
  now rewrite (bind_Ret _ _ _ _ _ H).
Qed.

Lemma process_query_raised url t q md s e s' :
  fetch_latest_metric_value q t url s = (Raise e, s') ->
  process_query url t q md s = (Exit (FailJson (exc_msg e)), s').
Proof.
  intros H. unfold process_query, try_except.
  now rewrite (bind_Raise _ _ _ _ _ H).
Qed.

(** The loop body returns the extended mapping or ends the process with a
    failure report; it never lets an exception out. *)
Lemma process_query_cases url t q md s :
  (exists latest s',
     fetch_latest_metric_value q t url s = (Ret latest, s')
     /\ process_query url t q md s
        = (Ret (dict_set (result_key q latest) (result_value latest) md), s'))
  \/ (exists e s',
        fetch_latest_metric_value q t url s = (Raise e, s')
        /\ process_query url t q md s = (Exit (FailJson (exc_msg e)), s')).
Proof.
  destruct (fetch_latest_metric_value q t url s) as [[latest|e|r] s'] eqn:E.
  - left. exists latest, s'. split; [reflexivity|].
    now apply process_query_returned.
  - right. exists e, s'. split; [reflexivity|].
    now apply process_query_raised.
  - now apply fetch_stays in E.
Qed.

Lemma process_query_state url t q md s r s' :
  process_query url t q md s = (r, s') ->
  exists w', s' = after_request url t q s w'.
Proof.
  intros H.
  destruct (process_query_cases url t q md s)
    as [(latest & s1 & Hf & Hp) | (e & s1 & Hf & Hp)];
    rewrite Hp in H; inversion H; subst; eapply fetch_state; eassumption.
Qed.

(** The loop: it returns or fails, and in both cases the requests sent are
    those of a prefix of the queries, all of them when it returns. *)
Lemma for_each_outcome url t qs md s :
  exists n s',
    (n <= List.length qs)%nat
    /\ sent s' = (sent s ++ map (request_for url t) (firstn n qs))%list
    /\ ((exists md',
           for_each qs (process_query url t) md s = (Ret md', s')
           /\ n = List.length qs)
        \/ (exists msg,
              for_each qs (process_query url t) md s
              = (Exit (FailJson msg), s'))).
Proof.
  revert md s; induction qs as [|q qs IH]; intros md s.
  - exists 0%nat, s. split; [reflexivity|]. split.
    + cbn. now rewrite app_nil_r.
    + left. now exists md.
  - cbn [for_each].
    destruct (process_query_cases url t q md s)
      as [(latest & s1 & Hf & Hp) | (e & s1 & Hf & Hp)].
    + destruct (fetch_state _ _ _ _ _ _ Hf) as (w' & ->).
      destruct (IH (dict_set (result_key q latest) (result_value latest) md)
                  (after_request url t q s w'))
        as (n & s' & Hn & Hsent & Hres).
      exists (S n), s'. split; [cbn; lia|]. split.
      * rewrite Hsent. cbn. now rewrite <- app_assoc.
      * rewrite (bind_Ret _ _ _ _ _ Hp).
        destruct Hres as [(md' & Hr & ->) | (msg & Hr)].
        -- left. now exists md'.
        -- right. now exists msg.
    + destruct (fetch_state _ _ _ _ _ _ Hf) as (w' & ->).
      exists 1%nat, (after_request url t q s w'). split; [cbn; lia|]. split.
      * reflexivity.
      * right. exists (exc_msg e). now rewrite (bind_Exit _ _ _ _ _ Hp).
Qed.

(** Once a query has ended the process, so has the batch. *)
Lemma for_each_aborts url t done q rest md0 s0 md s r s' :
  for_each done (process_query url t) md0 s0 = (Ret md, s) ->
  process_query url t q md s = (Exit r, s') ->
  for_each (done ++ q :: rest) (process_query url t) md0 s0 = (Exit r, s').
Proof.
  intros Hdone Hq. rewrite for_each_app, Hdone. cbn [for_each].
  now rewrite (bind_Exit _ _ _ _ _ Hq).
Qed.

(** Reading the clock sends nothing and returns. *)
Lemma now_returns s :
  exists w',
    now s = (Ret (int_of_float (fst (time_time (world s)))),
             {| world := w'; sent := sent s |}).
Proof.
  unfold now. destruct (time_time (world s)) as [t w']. now exists w'.
Qed.

Lemma main_aborts url done q rest w t md s r s' :
  processed url done w t md s ->
  process_query url t q md s = (Exit r, s') ->
  invoke url (done ++ q :: rest) w = (Exit r, s').
Proof.
  intros (s0 & Hnow & Hdone) Hq. unfold invoke, main.
  rewrite (bind_Ret _ _ _ _ _ Hnow).
  apply bind_Exit. eapply for_each_aborts; eassumption.
Qed.

(** The invocation always ends with a report. *)
Lemma main_reports url qs w :
  exists r s', invoke url qs w = (Exit r, s').
Proof.
  unfold invoke, main.
  destruct (now_returns {| world := w; sent := [] |}) as (w' & Hnow).
  rewrite (bind_Ret _ _ _ _ _ Hnow).
  destruct (for_each_outcome url
              (int_of_float (fst (time_time w))) qs []
              {| world := w'; sent := [] |})
    as (n & s' & _ & _ & [(md' & Hr & _) | (msg & Hr)]); cbn [world] in *.
  - rewrite (bind_Ret _ _ _ _ _ Hr). now eexists _, _.
  - rewrite (bind_Exit _ _ _ _ _ Hr). now eexists _, _.
Qed.

(** A successful invocation went through the whole loop. *)
Lemma main_succeeded url qs w changed md s' :
  invoke url qs w = (Exit (ExitJson changed md), s') ->
  changed = false
  /\ exists w0,
       for_each qs (process_query url (int_of_float (fst (time_time w)))) []
         {| world := w0; sent := [] |} = (Ret md, s').
Proof.
  unfold invoke, main.
  destruct (now_returns {| world := w; sent := [] |}) as (w' & Hnow).
  rewrite (bind_Ret _ _ _ _ _ Hnow). cbn [world sent].
  destruct (for_each_outcome url
              (int_of_float (fst (time_time w))) qs []
              {| world := w'; sent := [] |})
    as (n & s1 & _ & _ & [(md' & Hr & _) | (msg & Hr)]).
  - rewrite (bind_Ret _ _ _ _ _ Hr). unfold exit_json.
    intros H; inversion H; subst. split; [reflexivity|]. now exists w'.
  - rewrite (bind_Exit _ _ _ _ _ Hr). discriminate.
Qed.

(** The loop body on a body that reports a sample, and on one that reports
    none. *)
Lemma process_query_found url t q md s data w' first others timestamp sample f :
  answers url t q (world s) data w' ->
  result_array data = Some (first :: others) ->
  value_pair first = Some (timestamp, sample) ->
  py_float sample = inr f ->
  fetch_latest_metric_value q t url s
  = (Ret (Some f), after_request url t q s w')
  /\ process_query url t q md s
     = (Ret (dict_set (Sanitize.sanitize_query q) (MFloat f) md),
        after_request url t q s w').
Proof.
  intros Hans Harr Hpair Hfloat.
  assert (Hf : fetch_latest_metric_value q t url s
               = (Ret (Some f), after_request url t q s w')).
  { rewrite (fetch_answered _ _ _ _ _ _ Hans).
    eapply read_sample_found; eassumption. }
  split; [exact Hf|].
  now rewrite (process_query_returned _ _ _ md _ _ _ Hf).
Qed.

Lemma process_query_absent url t q md s data w' :
  answers url t q (world s) data w' ->
  result_array data = Some [] ->
  fetch_latest_metric_value q t url s
  = (Ret None, after_request url t q s w')
  /\ process_query url t q md s
     = (Ret (dict_set q (MStr NO_DATA) md), after_request url t q s w').
Proof.
  intros Hans Harr.
  assert (Hf : fetch_latest_metric_value q t url s
               = (Ret None, after_request url t q s w')).
  { rewrite (fetch_answered _ _ _ _ _ _ Hans).
    now apply read_sample_empty. }
  split; [exact Hf|].
  now rewrite (process_query_returned _ _ _ md _ _ _ Hf).
Qed.

(** The entries a returning loop adds, when no two keys can collide. *)
Lemma for_each_entries url t qs md s md' s' :
  for_each qs (process_query url t) md s = (Ret md', s') ->
  collision_free qs = true ->
  (forall q k, In q qs -> In k (dict_keys md) ->
               k <> q /\ k <> Sanitize.sanitize_query q) ->
  exists new,
    md' = (md ++ new)%list
    /\ Forall2 (fun q kv => exists latest, kv = entry_of q latest) qs new.
Proof.
  revert md s; induction qs as [|q qs IH]; intros md s Hrun Hfree Hold.
  - inversion Hrun; subst. exists []. split; [now rewrite app_nil_r | constructor].
  - cbn [for_each] in Hrun.
    apply bind_Ret_inv in Hrun. destruct Hrun as (md1 & s1 & Hq & Hrest).
    destruct (process_query_cases url t q md s)
      as [(latest & s2 & Hf & Hp) | (e & s2 & Hf & Hp)];
      rewrite Hp in Hq; [|discriminate].
    inversion Hq; subst md1 s1; clear Hq.
    cbn [collision_free] in Hfree. apply andb_true_iff in Hfree.
    destruct Hfree as [Hq_rest Hfree].
    assert (Hkey : ~ In (result_key q latest) (dict_keys md)).
    { intros I. destruct (Hold q _ (or_introl eq_refl) I) as [N1 N2].
      destruct latest; cbn in N1, N2; congruence. }
    rewrite (dict_set_fresh _ _ _ Hkey) in Hrest.
    destruct (IH _ _ Hrest Hfree) as (new & -> & Hnew).
    + intros q' k Hin Hk. rewrite dict_keys_app in Hk.
      apply in_app_or in Hk. destruct Hk as [Hk | [<- | []]].
      * apply Hold; [now right | assumption].
      * rewrite forallb_forall in Hq_rest. specialize (Hq_rest q' Hin).
        unfold distinct_keys in Hq_rest.
        apply andb_true_iff in Hq_rest. destruct Hq_rest as [H12 H3].
        apply andb_true_iff in H12. destruct H12 as [H1 H2].
        apply negb_true_iff, String.eqb_neq in H1, H2, H3.
        destruct latest; cbn [result_key fst]; split; congruence.
    + exists ((result_key q latest, result_value latest) :: new). split.
      * now rewrite <- app_assoc.
      * constructor; [now exists latest | assumption].
Qed.

End MainFacts.

(* ================================================================== *)
(** ** The sanitized key *)

(** C5.  [sanitize_query] keeps the length of the query and acts character
    by character: at every position a [':'] or a ['.'] becomes ['_'] and any
    other character stays what it is.  It is a function of the query string
    alone: no world, clock or server is among its arguments. *)
Theorem sanitize_query_replaces_colon_and_dot (q : string) :
  String.length (Sanitize.sanitize_query q) = String.length q
  /\ forall n : nat,
       String.get n (Sanitize.sanitize_query q)
       = option_map
           (fun c : ascii =>
              if (Ascii.eqb c ":" || Ascii.eqb c ".")%bool then "_"%char else c)
           (String.get n q).
Proof.
  rewrite SanitizeFacts.sanitize_query_map.
  split.
  - apply PyStrFacts.map_length.
  - intros n. apply PyStrFacts.map_get.
Qed.

(** [replace] on the patterns Python is known by: occurrences are taken
    left to right without overlap, and an empty pattern matches between the
    characters. *)
Example replace_without_overlap : PyStr.replace "aaa" "aa" "b" = "ba".
Proof. reflexivity. Qed.

Example replace_longer_pattern :
  PyStr.replace "a::b::c" "::" "." = "a.b.c".
Proof. reflexivity. Qed.

Example replace_empty_pattern : PyStr.replace "abc" EmptyString "-" = "-a-b-c-".
Proof. reflexivity. Qed.

(** The bytes C3 A9 35 are the two characters e-acute and 5. *)
Example chars_of_utf8 :
  chars (String (ascii_of_nat 195) (String (ascii_of_nat 169) "5"))
  = [String (ascii_of_nat 195) (String (ascii_of_nat 169) EmptyString); "5"].
Proof. reflexivity. Qed.

(** The example of the specification. *)
Example sanitize_query_example :
  Sanitize.sanitize_query "rate(http:req.total[5m])" = "rate(http_req_total[5m])".
Proof. reflexivity. Qed.

(** C8.  [sanitize_query] is idempotent, and it is not injective: two
    different queries can have the same sanitized form. *)
Theorem sanitize_query_idempotent_not_injective :
  (forall q : string,
     Sanitize.sanitize_query (Sanitize.sanitize_query q)
     = Sanitize.sanitize_query q)
  /\ (exists q1 q2 : string,
        q1 <> q2 /\ Sanitize.sanitize_query q1 = Sanitize.sanitize_query q2).
Proof.
  split.
  - exact SanitizeFacts.sanitize_query_idem.
  - exists "a:b", "a.b". split; [discriminate | reflexivity].
Qed.

(* ================================================================== *)
(** ** One query: found, absent, failed *)

Section QueryClaims.

Context {RT : Runtime}.


(** C2.  When the server answers a query with a body whose [data.result]
    array is empty, the loop body returns (nothing is raised, the process
    goes on) and the entry it adds has the query itself, unsanitized, as its
    key and the text "No data available for the specified time range." as
    its value. *)
Theorem absent_value_entry url t q md s data w' :
  answers url t q (world s) data w' ->
  result_array data = Some [] ->
  process_query url t q md s
  = (Ret (dict_set q
            (MStr "No data available for the specified time range.") md),
     after_request url t q s w')
  /\ dict_lookup q
       (dict_set q
          (MStr "No data available for the specified time range.") md)
     = Some (MStr "No data available for the specified time range.").
Proof.
  intros Hans Harr. split.
  - eapply process_query_absent; eassumption.
  - apply dict_lookup_set_same.
Qed.

(** C9.  A sample that converts to a float which is false as a condition
    (0.0, -0.0) is a found value all the same: the fetch returns it, not
    [None], and the entry has the sanitized key and the float as its value,
    which is not the "no data" text. *)
Theorem falsy_sample_is_found
  url t q md s data w' first others timestamp sample f :
  answers url t q (world s) data w' ->
  result_array data = Some (first :: others) ->
  value_pair first = Some (timestamp, sample) ->
  py_float sample = inr f ->
  py_truthy (PFloat f) = false ->
  fetch_latest_metric_value q t url s
  = (Ret (Some f), after_request url t q s w')
  /\ process_query url t q md s
     = (Ret (dict_set (Sanitize.sanitize_query q) (MFloat f) md),
        after_request url t q s w')
  /\ dict_lookup (Sanitize.sanitize_query q)
       (dict_set (Sanitize.sanitize_query q) (MFloat f) md)
     <> Some (MStr NO_DATA).
Proof.
  intros Hans Harr Hpair Hfloat _.
  destruct (process_query_found url t q md s data w' first others
              timestamp sample f Hans Harr Hpair Hfloat) as [Hf Hp].
  repeat split; try assumption.
  rewrite dict_lookup_set_same. discriminate.
Qed.

End QueryClaims.

(* ================================================================== *)
(** ** The whole batch *)

Section BatchClaims.

Context {RT : Runtime}.

(** C3, as the code has it.  A successful response with a malformed body
    has one of two outcomes.  When the first entry of a non-empty
    [data.result] array is an object without ["value"], or with a ["value"]
    list of fewer than two elements, reading the sample raises [KeyError] or
    [IndexError]; the handler of [main] reports it, and the whole batch ends
    with that failure report, as it does on a transport error: the queries
    after it are not sent and no mapping is returned.  When the body is an
    object without ["data"], or with a ["data"] object without ["result"],
    nothing is raised: [get] falls back on its default and the query gets
    the entry of a query without data. *)
Theorem malformed_body_outcomes url done q rest w t md s data w' :
  processed url done w t md s ->
  answers url t q (world s) data w' ->
  (forall fields others,
     result_array data = Some (PDict fields :: others) ->
     (dict_lookup "value" fields = None
      \/ exists pair,
           dict_lookup "value" fields = Some (PList pair)
           /\ (List.length pair < 2)%nat) ->
     exists e,
       fetch_latest_metric_value q t url s
       = (Raise e, after_request url t q s w')
       /\ (exc_cls e = KeyError \/ exc_cls e = IndexError)
       /\ invoke url (done ++ q :: rest) w
          = (Exit (FailJson (exc_msg e)), after_request url t q s w'))
  /\ (forall top,
        data = PDict top ->
        (dict_lookup "data" top = None
         \/ exists inner,
              dict_lookup "data" top = Some (PDict inner)
              /\ dict_lookup "result" inner = None) ->
        process_query url t q md s
        = (Ret (dict_set q
                  (MStr "No data available for the specified time range.")
                  md),
           after_request url t q s w')).
Proof.
  intros Hdone Hans. split.
  - intros fields others Harr Hshape.
    assert (Hraise : exists e,
               read_sample data (after_request url t q s w')
               = (Raise e, after_request url t q s w')
               /\ (exc_cls e = KeyError \/ exc_cls e = IndexError)).
    { destruct Hshape as [Hnone | (pair & Hsome & Hlen)].
      - eexists. split.
        + eapply read_sample_no_value; eassumption.
        + now left.
      - eexists. split.
        + eapply read_sample_short_pair; eassumption.
        + now right. }
    destruct Hraise as (e & Hread & Hcls).
    exists e.
    assert (Hf : fetch_latest_metric_value q t url s
                 = (Raise e, after_request url t q s w'))
      by now rewrite (fetch_answered _ _ _ _ _ _ Hans).
    repeat split; try assumption.
    eapply main_aborts; [eassumption|].
    now apply process_query_raised.
  - intros top -> Hshape.
    apply (process_query_returned url t q md s None).
    rewrite (fetch_answered _ _ _ _ _ _ Hans).
    destruct Hshape as [Hnone | (inner & Hsome & Hnone)].
    + now apply read_sample_no_data_field.
    + eapply read_sample_no_result_field; eassumption.
Qed.

(** C4.  When the request of one query of the batch ends in a transport
    error (a [RequestException] out of [requests.get], or a status that
    [raise_for_status] refuses), the invocation ends with the failure report
    carrying the text of that error, and with no [metrics_data]: whatever the
    queries before it brought in is dropped, and the queries after it are
    never sent. *)
Theorem transport_error_fails_batch url done q rest w t md s e w' :
  processed url done w t md s ->
  transport_error url t q (world s) e w' ->
  invoke url (done ++ q :: rest) w
  = (Exit (FailJson (exc_msg e)), after_request url t q s w')
  /\ (forall changed metrics_data,
        fst (invoke url (done ++ q :: rest) w)
        <> Exit (ExitJson changed metrics_data)).
Proof.
  intros Hdone Herr.
  assert (H : invoke url (done ++ q :: rest) w
              = (Exit (FailJson (exc_msg e)), after_request url t q s w')).
  { eapply main_aborts; [eassumption|].
    apply process_query_raised. now apply fetch_transport_error. }
  split; [exact H|].
  intros changed metrics_data. rewrite H. discriminate.
Qed.

(** C10.  Whatever exception the fetch of a query raises (a transport
    error, a [KeyError] or [IndexError] from a malformed entry, a
    [ValueError] from [float], ...), the handler of [main] turns it into the
    failure report with the text of the exception; and no invocation ends
    with an exception: every one ends with a report. *)
Theorem every_exception_is_reported url done q rest w t md s e s' :
  processed url done w t md s ->
  fetch_latest_metric_value q t url s = (Raise e, s') ->
  invoke url (done ++ q :: rest) w = (Exit (FailJson (exc_msg e)), s')
  /\ (forall url' queries w',
        exists r s'', invoke url' queries w' = (Exit r, s'')).
Proof.
  intros Hdone Hraise. split.
  - eapply main_aborts; [eassumption|]. now apply process_query_raised.
  - intros url' queries w'. apply main_reports.
Qed.

(** C6.  A successful invocation on a non-empty list of queries without
    key collisions reports [changed = false] and a mapping with exactly one
    entry per query, in the order of the queries: the entry of a query is
    its sanitized form with a float, or the query itself with the "no data"
    text. *)
Theorem one_entry_per_query url queries w changed md s' :
  queries <> [] ->
  collision_free queries = true ->
  invoke url queries w = (Exit (ExitJson changed md), s') ->
  changed = false
  /\ List.length md = List.length queries
  /\ Forall2
       (fun q kv =>
          (exists f, kv = (Sanitize.sanitize_query q, MFloat f))
          \/ kv = (q, MStr "No data available for the specified time range."))
       queries md.
Proof.
  intros _ Hfree Hrun.
  apply main_succeeded in Hrun. destruct Hrun as (-> & w0 & Hloop).
  destruct (for_each_entries _ _ _ _ _ _ _ Hloop Hfree) as (new & -> & Hnew).
  { intros q k _ []. }
  cbn [app]. split; [reflexivity|].
  split.
  - symmetry. eapply Forall2_length; eassumption.
  - eapply Forall2_impl; [|exact Hnew].
    intros q kv ([f|] & ->); [left; now exists f | now right].
Qed.

End BatchClaims.

(* ================================================================== *)
(** ** The claims on the scripted server *)

Section Runs.

Import Scripted.

Local Existing Instance Scripted.runtime.


(** The query ["node:load.1"] answered with an empty result. *)
Lemma absent_value_entry_witness :
  process_query url epoch "node:load.1" []
    (standing (running [ok no_sample]) [])
  = (Ret [("node:load.1",
           MStr "No data available for the specified time range.")],
     (standing (running []) [asked "node:load.1"]))
  /\ dict_lookup "node:load.1"
       [("node:load.1",
         MStr "No data available for the specified time range.")]
     = Some (MStr "No data available for the specified time range.").
Proof.
  apply (absent_value_entry (RT := runtime) url epoch "node:load.1" []
           (standing (running [ok no_sample]) [])
           no_sample (running [])).
  - eexists. repeat split; reflexivity.
  - reflexivity.
Defined.

(** The query ["node:load.1"] answered with the sample ["0"]. *)
Lemma falsy_sample_is_found_witness :
  py_truthy (PFloat zero) = false
  /\ fetch_latest_metric_value "node:load.1" epoch url
       (standing (running [ok (one_sample epoch "0")]) [])
     = (Ret (Some zero),
        (standing (running []) [asked "node:load.1"]))
  /\ process_query url epoch "node:load.1" []
       (standing (running [ok (one_sample epoch "0")]) [])
     = (Ret [("node_load_1", MFloat (RT := runtime) zero)],
        (standing (running []) [asked "node:load.1"]))
  /\ dict_lookup "node_load_1" [("node_load_1", MFloat (RT := runtime) zero)]
     <> Some (MStr NO_DATA).
Proof.
  split; [reflexivity|].
  apply (falsy_sample_is_found (RT := runtime) url epoch "node:load.1" []
           (standing (running [ok (one_sample epoch "0")]) [])
           (one_sample epoch "0") (running [])
           (PDict [("metric", PDict []);
                   ("value", PList [PInt epoch; PStr "0"])])
           [] (PInt epoch) (PStr "0") zero).
  - eexists. repeat split; reflexivity.
  - reflexivity.
  - reflexivity.
  - reflexivity.
  - reflexivity.
Defined.

(** C3 as the specification states it does not hold: a successful response
    whose body has no ["data"] field (so nothing on the path
    [data.result[0].value[1]]) raises nothing.  The query counts as one
    without data, the batch goes on, and the invocation succeeds. *)
Lemma missing_data_field_is_no_data :
  answers (RT := runtime) url epoch "up"
    (running [ok bare_success; ok (one_sample epoch "1")])
    bare_success (running [ok (one_sample epoch "1")])
  /\ result_array bare_success = None
  /\ invoke (RT := runtime) url ["up"; "node:load.1"]
       (boot [ok bare_success; ok (one_sample epoch "1")])
     = (Exit (ExitJson false
                [("up", MStr "No data available for the specified time range.");
                 ("node_load_1", MFloat (RT := runtime) one)]),
        standing (running []) [asked "up"; asked "node:load.1"])
  /\ ~ (exists msg,
          fst (invoke (RT := runtime) url ["up"; "node:load.1"]
                 (boot [ok bare_success; ok (one_sample epoch "1")]))
          = Exit (FailJson msg)).
Proof.
  split; [eexists; repeat split; reflexivity|].
  split; [reflexivity|].
  split; [reflexivity|].
  intros (msg & H). discriminate H.
Qed.

(** The second of three queries answered with an entry without
    ["value"]; and a query answered with a body without ["data"]. *)
Lemma malformed_body_outcomes_witness :
  (exists e,
     fetch_latest_metric_value "node:load.1" epoch url
       (standing (running [ok no_value; ok no_sample]) [asked "up"])
     = (Raise e,
        after_request url epoch "node:load.1"
          (standing (running [ok no_value; ok no_sample]) [asked "up"])
          (running [ok no_sample]))
     /\ (exc_cls e = KeyError \/ exc_cls e = IndexError)
     /\ invoke (RT := runtime) url (["up"] ++ "node:load.1" :: ["x"])
          (boot [ok (one_sample epoch "1"); ok no_value; ok no_sample])
        = (Exit (FailJson (exc_msg e)),
           after_request url epoch "node:load.1"
             (standing (running [ok no_value; ok no_sample]) [asked "up"])
             (running [ok no_sample])))
  /\ process_query url epoch "node:load.1" []
       (standing (running [ok bare_success]) [])
     = (Ret [("node:load.1",
              MStr "No data available for the specified time range.")],
        standing (running []) [asked "node:load.1"]).
Proof.
  split.
  - apply (proj1
             (malformed_body_outcomes (RT := runtime) url ["up"]
                "node:load.1" ["x"]
                (boot [ok (one_sample epoch "1"); ok no_value; ok no_sample])
                epoch [("up", MFloat (RT := runtime) one)]
                (standing (running [ok no_value; ok no_sample]) [asked "up"])
                no_value (running [ok no_sample])
                ltac:(eexists; split; reflexivity)
                ltac:(eexists; repeat split; reflexivity))
             [("metric", PDict [])] []).
    + reflexivity.
    + left. reflexivity.
  - apply (proj2
             (malformed_body_outcomes (RT := runtime) url []
                "node:load.1" []
                (boot [ok bare_success])
                epoch []
                (standing (running [ok bare_success]) [])
                bare_success (running [])
                ltac:(eexists; split; reflexivity)
                ltac:(eexists; repeat split; reflexivity))
             [("status", PStr "success")]).
    + reflexivity.
    + left. reflexivity.
Defined.

(** The second of three queries answered with status 503. *)
Lemma transport_error_fails_batch_witness :
  invoke (RT := runtime) url (["up"] ++ "node:load.1" :: ["x"])
    (boot [ok (one_sample epoch "1"); status 503; ok no_sample])
  = (Exit (FailJson "HTTP error"),
     standing (running [ok no_sample]) [asked "up"; asked "node:load.1"])
  /\ (forall changed metrics_data,
        fst (invoke (RT := runtime) url (["up"] ++ "node:load.1" :: ["x"])
               (boot [ok (one_sample epoch "1"); status 503; ok no_sample]))
        <> Exit (ExitJson changed metrics_data)).
Proof.
  apply (transport_error_fails_batch (RT := runtime) url ["up"] "node:load.1" ["x"]
           (boot [ok (one_sample epoch "1"); status 503; ok no_sample])
           epoch [("up", MFloat (RT := runtime) one)]
           (standing (running [status 503; ok no_sample]) [asked "up"])
           (Exc HTTPError "HTTP error") (running [ok no_sample])).
  - eexists. split; reflexivity.
  - eapply status_raises; reflexivity.
Defined.

(** The second of three queries answered with a sample that is no
    number. *)
Lemma every_exception_is_reported_witness :
  invoke (RT := runtime) url (["up"] ++ "node:load.1" :: ["x"])
    (boot [ok (one_sample epoch "1"); ok (one_sample epoch "n/a");
           ok no_sample])
  = (Exit (FailJson "ValueError"),
     standing (running [ok no_sample]) [asked "up"; asked "node:load.1"])
  /\ (forall url' queries w',
        exists r s'', invoke (RT := runtime) url' queries w' = (Exit r, s'')).
Proof.
  apply (every_exception_is_reported (RT := runtime) url ["up"] "node:load.1" ["x"]
           (boot [ok (one_sample epoch "1"); ok (one_sample epoch "n/a");
                  ok no_sample])
           epoch [("up", MFloat (RT := runtime) one)]
           (standing (running [ok (one_sample epoch "n/a"); ok no_sample])
              [asked "up"])
           (Exc ValueError "ValueError")
           (standing (running [ok no_sample])
              [asked "up"; asked "node:load.1"])).
  - eexists. split; reflexivity.
  - reflexivity.
Defined.

(** Two queries, one found and one absent. *)
Lemma one_entry_per_query_witness :
  false = false
  /\ List.length
       [("up", MFloat (RT := runtime) one);
        ("node:load.1",
         MStr "No data available for the specified time range.")]
     = List.length ["up"; "node:load.1"]
  /\ Forall2
       (fun q kv =>
          (exists f, kv = (Sanitize.sanitize_query q, MFloat f))
          \/ kv = (q, MStr "No data available for the specified time range."))
       ["up"; "node:load.1"]
       [("up", MFloat (RT := runtime) one);
        ("node:load.1",
         MStr "No data available for the specified time range.")].
Proof.
  apply (one_entry_per_query (RT := runtime) url ["up"; "node:load.1"]
           (boot [ok (one_sample epoch "1"); ok no_sample])
           false
           [("up", MFloat (RT := runtime) one);
            ("node:load.1",
             MStr "No data available for the specified time range.")]
           (standing (running []) [asked "up"; asked "node:load.1"])).
  - discriminate.
  - reflexivity.
  - reflexivity.
Defined.

(** Runs that end in the three builtin errors C10 names. *)
Example key_error_is_reported :
  fst (invoke (RT := runtime) url ["up"] (boot [ok no_value])) = Exit (FailJson "KeyError").
Proof. reflexivity. Qed.

Example index_error_is_reported :
  fst (invoke (RT := runtime) url ["up"] (boot [ok (short_pair epoch)]))
  = Exit (FailJson "IndexError").
Proof. reflexivity. Qed.

Example value_error_is_reported :
  fst (invoke (RT := runtime) url ["up"] (boot [ok (one_sample epoch "n/a")]))
  = Exit (FailJson "ValueError").
Proof. reflexivity. Qed.

(** A connection error on the first query: nothing else is sent. *)
Example connection_error_is_reported :
  invoke (RT := runtime) url ["up"; "x"]
    (boot [inl (Exc ConnectionError "connection refused"); ok no_sample])
  = (Exit (FailJson "connection refused"),
     standing (running [ok no_sample]) [asked "up"]).
Proof. reflexivity. Qed.

(** Two queries with the same sanitized form share one entry, the later
    value in the place of the earlier: the hypothesis of C6 is needed. *)
Example colliding_queries_share_an_entry :
  collision_free ["a:b"; "a.b"] = false
  /\ fst (invoke (RT := runtime) url ["a:b"; "a.b"]
            (boot [ok (one_sample epoch "1"); ok (one_sample epoch "0")]))
     = Exit (ExitJson false [("a_b", MFloat (RT := runtime) zero)]).
Proof. split; reflexivity. Qed.

(** The requests of a successful batch, all at the one reading of the
    clock. *)
Example requests_of_a_batch :
  sent (snd (invoke (RT := runtime) url ["up"; "node:load.1"]
               (boot [ok (one_sample epoch "1"); ok no_sample])))
  = [asked "up"; asked "node:load.1"].
Proof. reflexivity. Qed.

End Runs.

(* ================================================================== *)
(** ** More about the sanitized key *)

Module SanitizeMore.
Import Sanitize.

Lemma map_app f a b :
  PyStr.map f (a ++ b) = PyStr.map f a ++ PyStr.map f b.
Proof. induction a as [|c a IH]; simpl; [reflexivity | now rewrite IH]. Qed.

(** A map that fixes every character of a string fixes the string. *)
Lemma map_fixes f s :
  (forall n c, String.get n s = Some c -> f c = c) -> PyStr.map f s = s.
Proof.
  induction s as [|c s IH]; intros H; simpl; [reflexivity|].
  rewrite (H 0%nat c eq_refl), IH; [reflexivity|].
  intros n c' Hn. apply (H (S n)). exact Hn.
Qed.

Lemma sanitize_char_not_colon_or_dot c :
  sanitize_char c <> ":"%char /\ sanitize_char c <> "."%char.
Proof.
  unfold sanitize_char.
  destruct (Ascii.eqb c ":") eqn:E1; [split; discriminate|].
  destruct (Ascii.eqb c ".") eqn:E2; [split; discriminate|].
  apply Ascii.eqb_neq in E1, E2. now split.
Qed.

Lemma sanitize_char_fixes c :
  c <> ":"%char -> c <> "."%char -> sanitize_char c = c.
Proof.
  intros N1 N2. unfold sanitize_char.
  apply Ascii.eqb_neq in N1, N2. now rewrite N1, N2.
Qed.

Lemma sanitize_query_clean q n :
  String.get n (sanitize_query q) <> Some ":"%char
  /\ String.get n (sanitize_query q) <> Some "."%char.
Proof.
  rewrite SanitizeFacts.sanitize_query_map, PyStrFacts.map_get.
  destruct (String.get n q) as [c|]; cbn [option_map];
    [|split; discriminate].
  destruct (sanitize_char_not_colon_or_dot c) as [N1 N2].
  split; intros H; inversion H; contradiction.
Qed.

End SanitizeMore.

(** X1.  A sanitized key holds neither [':'] nor ['.'] at any position. *)
Theorem sanitized_key_has_no_colon_or_dot (q : string) (n : nat) :
  String.get n (Sanitize.sanitize_query q) <> Some ":"%char
  /\ String.get n (Sanitize.sanitize_query q) <> Some "."%char.
Proof. apply SanitizeMore.sanitize_query_clean. Qed.

(** X2.  The queries that [sanitize_query] leaves as they are are exactly
    those without [':'] and without ['.']. *)
Theorem sanitize_query_fixed_points (q : string) :
  Sanitize.sanitize_query q = q
  <-> (forall n : nat,
         String.get n q <> Some ":"%char /\ String.get n q <> Some "."%char).
Proof.
  split.
  - intros H n. rewrite <- H. apply SanitizeMore.sanitize_query_clean.
  - intros H. rewrite SanitizeFacts.sanitize_query_map.
    apply SanitizeMore.map_fixes. intros n c Hn.
    destruct (H n) as [N1 N2].
    apply SanitizeMore.sanitize_char_fixes; intros ->; congruence.
Qed.

(** X3.  Sanitizing a query put together from two parts is sanitizing the
    parts. *)
Theorem sanitize_query_app (a b : string) :
  Sanitize.sanitize_query (a ++ b)
  = Sanitize.sanitize_query a ++ Sanitize.sanitize_query b.
Proof.
  rewrite !SanitizeFacts.sanitize_query_map. apply SanitizeMore.map_app.
Qed.

(* ================================================================== *)
(** ** More about [fetch_latest_metric_value] *)

Section FetchMore.

Context {RT : Runtime}.

Local Abbreviation value := (pyval pyfloat).

(** A string that is not empty has a first character. *)
Lemma chars_nonempty c rest : chars (String c rest) <> [].
Proof.
  cbn [chars]. destruct (chars rest) as [|ch chs]; [discriminate|].
  destruct (starts_with_continuation rest); discriminate.
Qed.

(** What [read_sample] does once [data.get('data', {}).get('result', [])]
    has given [metric_data]. *)
Lemma read_sample_result data inner metric_data s :
  py_get data "data" (PDict []) = inr inner ->
  py_get inner "result" (PList []) = inr metric_data ->
  read_sample data s
  = (if py_truthy metric_data then
       first <- lift (py_index metric_data 0) ;;
       pr <- lift (py_item first "value") ;;
       sample <- lift (py_index pr 1) ;;
       f <- lift (py_float sample) ;;
       ret (Some f)
     else ret None) s.
Proof.
  intros H1 H2. unfold read_sample.
  unfold bind at 1. rewrite H1. cbn [lift ret].
  unfold bind at 1. rewrite H2. reflexivity.
Qed.

(** The reading of the first entry, as a pure function. *)
Lemma read_first_entry (first : value) s :
  (pr <- lift (py_item first "value") ;;
   sample <- lift (py_index pr 1) ;;
   f <- lift (py_float sample) ;;
   ret (Some f)) s
  = (match py_item first "value" with
     | inl e => Raise e
     | inr pr =>
         match py_index pr 1 with
         | inl e => Raise e
         | inr sample =>
             match py_float sample with
             | inl e => Raise e
             | inr f => Ret (Some f)
             end
         end
     end, s).
Proof.
  unfold bind.
  destruct (py_item first "value") as [e|pr]; [reflexivity|].
  cbn [lift ret].
  destruct (py_index pr 1) as [e|sample]; [reflexivity|].
  cbn [lift ret].
  destruct (py_float sample) as [e|f]; reflexivity.
Qed.

Lemma read_sample_entries data first others s :
  result_array data = Some (first :: others) ->
  read_sample data s
  = (match py_item first "value" with
     | inl e => Raise e
     | inr pr =>
         match py_index pr 1 with
         | inl e => Raise e
         | inr sample =>
             match py_float sample with
             | inl e => Raise e
             | inr f => Ret (Some f)
             end
         end
     end, s).
Proof.
  intros Harr.
  destruct (result_array_get _ _ Harr) as (inner & H1 & H2).
  rewrite (read_sample_result _ _ _ _ H1 H2).
  cbn [py_truthy py_index nth_error]. unfold bind at 1. cbn [lift ret].
  apply read_first_entry.
Qed.

(** What a successful subscript says about the value subscripted. *)
Lemma py_item_inv (v : value) k x :
  py_item v k = inr x ->
  exists fields, v = PDict fields /\ dict_lookup k fields = Some x.
Proof.
  destruct v as [| | | | |l|fields]; cbn [py_item builtin_error];
    try discriminate.
  destruct (dict_lookup k fields) as [y|] eqn:E; [|discriminate].
  intros H; inversion H; subst y. now exists fields.
Qed.

Lemma py_index_object_inv (v : value) fields :
  py_index v 0 = inr (PDict fields) ->
  exists others, v = PList (PDict fields :: others).
Proof.
  destruct v as [| | | |str|l|d]; cbn [py_index builtin_error];
    try discriminate.
  - destruct (nth_error (chars str) 0); discriminate.
  - destruct l as [|x l]; cbn [nth_error builtin_error]; [discriminate|].
    intros H; inversion H; subst x. now exists l.
Qed.

Lemma result_array_of_get (data inner : value) x l :
  py_get data "data" (PDict []) = inr inner ->
  py_get inner "result" (PList []) = inr (PList (x :: l)) ->
  result_array data = Some (x :: l).
Proof.
  destruct data as [| | | | |l0|top]; cbn [py_get builtin_error];
    try discriminate.
  intros H1; inversion H1; subst inner; clear H1.
  unfold result_array.
  destruct (dict_lookup "data" top) as [v|]; cbn [py_get dict_lookup];
    [|discriminate].
  destruct v as [| | | | |l0|inner]; cbn [py_get builtin_error];
    try discriminate.
  destruct (dict_lookup "result" inner) as [r|]; [|discriminate].
  intros H2; inversion H2; now subst r.
Qed.

(** The body behind a returned float. *)
Lemma read_sample_Some_inv data s f s' :
  read_sample data s = (Ret (Some f), s') ->
  exists fields others pr sample,
    result_array data = Some (PDict fields :: others)
    /\ dict_lookup "value" fields = Some pr
    /\ py_index pr 1 = inr sample
    /\ py_float sample = inr f.
Proof.
  unfold read_sample. unfold bind at 1.
  destruct (py_get data "data" (PDict [])) as [e|inner] eqn:H1;
    cbn [lift raise ret]; [discriminate|].
  unfold bind at 1.
  destruct (py_get inner "result" (PList [])) as [e|metric_data] eqn:H2;
    cbn [lift raise ret]; [discriminate|].
  destruct (py_truthy metric_data); [|discriminate].
  unfold bind at 1.
  destruct (py_index metric_data 0) as [e|first] eqn:H3;
    cbn [lift raise ret]; [discriminate|].
  rewrite read_first_entry.
  destruct (py_item first "value") as [e|pr] eqn:H4; [discriminate|].
  destruct (py_index pr 1) as [e|sample] eqn:H5; [discriminate|].
  destruct (py_float sample) as [e|f'] eqn:H6; [discriminate|].
  intros H; inversion H; subst f' s'.
  destruct (py_item_inv _ _ _ H4) as (fields & -> & Hval).
  destruct (py_index_object_inv _ _ H3) as (others & ->).
  exists fields, others, pr, sample.
  repeat split; try assumption.
  eapply result_array_of_get; eassumption.
Qed.

(** The body behind a returned [None]. *)
Lemma read_sample_None_inv data s s' :
  read_sample data s = (Ret None, s') ->
  exists inner metric_data,
    py_get data "data" (PDict []) = inr inner
    /\ py_get inner "result" (PList []) = inr metric_data
    /\ py_truthy metric_data = false.
Proof.
  unfold read_sample. unfold bind at 1.
  destruct (py_get data "data" (PDict [])) as [e|inner] eqn:H1;
    cbn [lift raise ret]; [discriminate|].
  unfold bind at 1.
  destruct (py_get inner "result" (PList [])) as [e|metric_data] eqn:H2;
    cbn [lift raise ret]; [discriminate|].
  destruct (py_truthy metric_data) eqn:T.
  - unfold bind at 1.
    destruct (py_index metric_data 0) as [e|first];
      cbn [lift raise ret]; [discriminate|].
    rewrite read_first_entry.
    destruct (py_item first "value") as [e|pr]; [discriminate|].
    destruct (py_index pr 1) as [e|sample]; [discriminate|].
    destruct (py_float sample) as [e|f]; discriminate.
  - intros _. now exists inner, metric_data.
Qed.

(** Exceptions of [requests.get] and of [json()] come out as they are. *)
Lemma fetch_get_raised url t q s e w' :
  requests_get (url ++ PROMETHEUS_QUERY_API)
    {| p_query := q; p_time := t |} (world s) = (inl e, w') ->
  fetch_latest_metric_value q t url s = (Raise e, after_request url t q s w').
Proof.
  intros Hget. rewrite fetch_body. unfold bind at 1, get. now rewrite Hget.
Qed.

Lemma fetch_json_raised url t q s response e w' :
  requests_get (url ++ PROMETHEUS_QUERY_API)
    {| p_query := q; p_time := t |} (world s) = (inr response, w') ->
  raise_for_status response = None ->
  response_json response = inl e ->
  fetch_latest_metric_value q t url s = (Raise e, after_request url t q s w').
Proof.
  intros Hget Hstatus Hjson. rewrite fetch_body.
  unfold bind at 1, get. rewrite Hget.
  unfold bind at 1, check_status. rewrite Hstatus. cbn [ret].
  unfold bind at 1. now rewrite Hjson.
Qed.

End FetchMore.

(* ================================================================== *)
(** ** One fetch: what it returns, raises and sends *)

Section FetchProperties.

Context {RT : Runtime}.

Local Abbreviation value := (pyval pyfloat).

(** X4.  On a successful answer the fetch returns the float [f] exactly
    when the first entry of [data.result] is an object whose ["value"],
    subscripted with 1, gives something [float] turns into [f].  The
    timestamp, further elements of ["value"] and further entries play no
    part. *)
Theorem fetch_found_iff url t q s data w' f :
  answers url t q (world s) data w' ->
  fst (fetch_latest_metric_value q t url s) = Ret (Some f)
  <-> exists fields others pr sample,
        result_array data = Some (PDict fields :: others)
        /\ dict_lookup "value" fields = Some pr
        /\ py_index pr 1 = inr sample
        /\ py_float sample = inr f.
Proof.
  intros Hans. rewrite (fetch_answered _ _ _ _ _ _ Hans). split.
  - destruct (read_sample data (after_request url t q s w')) as [r s1] eqn:E.
    cbn [fst]. intros ->. eapply read_sample_Some_inv; exact E.
  - intros (fields & others & pr & sample & Harr & Hval & Hidx & Hfloat).
    rewrite (read_sample_entries _ _ _ _ Harr).
    cbn [py_item fst]. now rewrite Hval, Hidx, Hfloat.
Qed.

(** X5.  On a successful answer the fetch returns [None] exactly when
    [data.get('data', {}).get('result', [])] is false as a condition: an
    empty list, but also a missing field, [null], [false], [0], an empty
    string or an empty object. *)
Theorem fetch_absent_iff url t q s data w' :
  answers url t q (world s) data w' ->
  fst (fetch_latest_metric_value q t url s) = Ret None
  <-> exists inner metric_data,
        py_get data "data" (PDict []) = inr inner
        /\ py_get inner "result" (PList []) = inr metric_data
        /\ py_truthy metric_data = false.
Proof.
  intros Hans. rewrite (fetch_answered _ _ _ _ _ _ Hans). split.
  - destruct (read_sample data (after_request url t q s w')) as [r s1] eqn:E.
    cbn [fst]. intros ->. eapply read_sample_None_inv; exact E.
  - intros (inner & metric_data & H1 & H2 & Hfalse).
    rewrite (read_sample_result _ _ _ _ H1 H2). now rewrite Hfalse.
Qed.

(** X6.  Only the first entry of [data.result] counts: two answers whose
    result arrays start with the same entry make the fetch return, or
    raise, the same thing. *)
Theorem only_first_entry_counts
  url t q s1 s2 data1 data2 w1 w2 first others1 others2 :
  answers url t q (world s1) data1 w1 ->
  answers url t q (world s2) data2 w2 ->
  result_array data1 = Some (first :: others1) ->
  result_array data2 = Some (first :: others2) ->
  fst (fetch_latest_metric_value q t url s1)
  = fst (fetch_latest_metric_value q t url s2).
Proof.
  intros Hans1 Hans2 Harr1 Harr2.
  rewrite (fetch_answered _ _ _ _ _ _ Hans1).
  rewrite (fetch_answered _ _ _ _ _ _ Hans2).
  rewrite (read_sample_entries _ _ _ _ Harr1).
  rewrite (read_sample_entries _ _ _ _ Harr2).
  reflexivity.
Qed.

(** X7.  A body that is not a JSON object, or whose ["data"] is present
    and not an object, makes the fetch raise [AttributeError]: the defaults
    of [get] cover a missing field, not a field of another type. *)
Theorem non_object_body_raises url t q s data w' :
  answers url t q (world s) data w' ->
  (is_object data = false
   \/ exists top v,
        data = PDict top
        /\ dict_lookup "data" top = Some v
        /\ is_object v = false) ->
  exists e,
    fetch_latest_metric_value q t url s
    = (Raise e, after_request url t q s w')
    /\ exc_cls e = AttributeError.
Proof.
  intros Hans Hshape. rewrite (fetch_answered _ _ _ _ _ _ Hans).
  unfold read_sample. unfold bind at 1.
  destruct Hshape as [Hdata | (top & v & -> & Hlook & Hv)].
  - destruct data; try discriminate Hdata;
      (eexists; split; [reflexivity | reflexivity]).
  - cbn [py_get]. rewrite Hlook. cbn [lift ret]. unfold bind at 1.
    destruct v; try discriminate Hv;
      (eexists; split; [reflexivity | reflexivity]).
Qed.

(** X8.  A sample that [float] refuses makes the fetch raise the error of
    [float]: [ValueError] for a text that is no number, [OverflowError] for
    an integer beyond the floats, [TypeError] for [null], a list or an
    object.  A JSON float or boolean is never refused. *)
Theorem unconvertible_sample_raises
  url t q s data w' fields others pr sample e :
  answers url t q (world s) data w' ->
  result_array data = Some (PDict fields :: others) ->
  dict_lookup "value" fields = Some pr ->
  py_index pr 1 = inr sample ->
  py_float sample = inl e ->
  fetch_latest_metric_value q t url s
  = (Raise e, after_request url t q s w')
  /\ match sample with
     | PStr _ => exc_cls e = ValueError
     | PInt _ => exc_cls e = OverflowError
     | PNone | PList _ | PDict _ => exc_cls e = TypeError
     | PBool _ | PFloat _ => False
     end.
Proof.
  intros Hans Harr Hval Hidx Hfloat. split.
  - rewrite (fetch_answered _ _ _ _ _ _ Hans).
    rewrite (read_sample_entries _ _ _ _ Harr).
    cbn [py_item]. now rewrite Hval, Hidx, Hfloat.
  - destruct sample as [|b|z|g|str|l|d];
      cbn [py_float builtin_error] in Hfloat;
      try discriminate Hfloat;
      try (inversion Hfloat; reflexivity).
    + destruct (float_of_int z); [discriminate|].
      now inversion Hfloat.
    + destruct (float_of_str str); [discriminate|].
      now inversion Hfloat.
Qed.

(** X9.  Whatever [requests.get] or [json()] raises, of whatever class,
    the fetch raises as it is: the [except] clause re-raises what it
    catches and lets the rest through. *)
Theorem exceptions_pass_through url t q s e w' :
  (requests_get (url ++ PROMETHEUS_QUERY_API)
     {| p_query := q; p_time := t |} (world s) = (inl e, w')
   \/ exists response,
        requests_get (url ++ PROMETHEUS_QUERY_API)
          {| p_query := q; p_time := t |} (world s) = (inr response, w')
        /\ raise_for_status response = None
        /\ response_json response = inl e) ->
  fetch_latest_metric_value q t url s = (Raise e, after_request url t q s w').
Proof.
  intros [Hget | (response & Hget & Hstatus & Hjson)].
  - now apply fetch_get_raised.
  - eapply fetch_json_raised; eassumption.
Qed.

(** X10.  Whatever its outcome, a fetch sends one request and no more: the
    one for its query at the given time, to the URL followed by
    [/api/v1/query]; and the fetch itself never ends the process. *)
Theorem fetch_sends_one_request url t q s :
  sent (snd (fetch_latest_metric_value q t url s))
  = (sent s
     ++ [{| req_url := url ++ "/api/v1/query";
            req_params := {| p_query := q; p_time := t |} |}])%list
  /\ (forall r, fst (fetch_latest_metric_value q t url s) <> Exit r).
Proof.
  destruct (fetch_latest_metric_value q t url s) as [r s'] eqn:E. split.
  - destruct (fetch_state _ _ _ _ _ _ E) as (w' & ->). reflexivity.
  - intros x. cbn [fst]. intros ->. now apply fetch_stays in E.
Qed.

(** X11.  A result that is true as a condition without being a list that
    starts with an object (a number, [true], a text, a non-empty object, a
    list of lists, ...) makes the fetch raise [TypeError] or [KeyError]. *)
Theorem malformed_result_raises url t q s data w' inner metric_data :
  answers url t q (world s) data w' ->
  py_get data "data" (PDict []) = inr inner ->
  py_get inner "result" (PList []) = inr metric_data ->
  py_truthy metric_data = true ->
  starts_with_object metric_data = false ->
  exists e,
    fetch_latest_metric_value q t url s
    = (Raise e, after_request url t q s w')
    /\ (exc_cls e = TypeError \/ exc_cls e = KeyError).
Proof.
  intros Hans H1 H2 Htrue Hshape.
  rewrite (fetch_answered _ _ _ _ _ _ Hans).
  rewrite (read_sample_result _ _ _ _ H1 H2), Htrue.
  unfold bind at 1.
  destruct metric_data as [|b|z|g|str|l|d];
    cbn [py_index builtin_error lift raise];
    try discriminate Htrue;
    try (eexists; split; [reflexivity | now left]).
  - destruct str as [|c rest]; [discriminate Htrue|].
    destruct (nth_error (chars (String c rest)) 0) as [ch|] eqn:E.
    + cbn [lift ret]. rewrite read_first_entry. cbn [py_item builtin_error].
      eexists; split; [reflexivity | now left].
    + destruct (chars (String c rest)) eqn:C; [|discriminate E].
      now apply chars_nonempty in C.
  - destruct l as [|first l]; [discriminate Htrue|].
    cbn [nth_error lift ret]. rewrite read_first_entry.
    destruct first; try discriminate Hshape;
      (eexists; split; [reflexivity | now left]).
  - eexists; split; [reflexivity | now right].
Qed.

End FetchProperties.

(* ================================================================== *)
(** ** More about dictionaries and the loop *)

Section DictMore.

Context {V : Type}.

Lemma dict_lookup_set_other (k k' : string) (v : V) d :
  k <> k' -> dict_lookup k (dict_set k' v d) = dict_lookup k d.
Proof.
  intros N. induction d as [|[k0 v0] d IH]; cbn [dict_set dict_lookup].
  - destruct (String.eqb k' k) eqn:E; [|reflexivity].
    apply String.eqb_eq in E. congruence.
  - destruct (String.eqb k0 k') eqn:E; cbn [dict_lookup].
    + apply String.eqb_eq in E. subst k0.
      destruct (String.eqb k' k) eqn:E'; [|reflexivity].
      apply String.eqb_eq in E'. congruence.
    + now rewrite IH.
Qed.

Lemma in_dict_set (k : string) (v : V) d kv :
  In kv (dict_set k v d) -> kv = (k, v) \/ In kv d.
Proof.
  induction d as [|[k0 v0] d IH]; cbn [dict_set].
  - intros [<- | []]. now left.
  - destruct (String.eqb k0 k) eqn:E.
    + apply String.eqb_eq in E. subst k0.
      intros [<- | H]; [now left | right; now right].
    + intros [<- | H]; [right; now left|].
      destruct (IH H) as [-> | H']; [now left | right; now right].
Qed.

Lemma in_dict_keys_set (k : string) (v : V) d k' :
  In k' (dict_keys (dict_set k v d)) <-> k' = k \/ In k' (dict_keys d).
Proof.
  induction d as [|[k0 v0] d IH]; cbn [dict_set].
  - cbn. intuition congruence.
  - destruct (String.eqb k0 k) eqn:E.
    + apply String.eqb_eq in E. subst k0. cbn. intuition congruence.
    + cbn [dict_keys map fst In] in *. rewrite IH. intuition congruence.
Qed.

Lemma NoDup_dict_set (k : string) (v : V) d :
  NoDup (dict_keys d) -> NoDup (dict_keys (dict_set k v d)).
Proof.
  induction d as [|[k0 v0] d IH]; cbn [dict_set]; intros H.
  - cbn. constructor; [intros [] | constructor].
  - destruct (String.eqb k0 k) eqn:E; [exact H|].
    cbn [dict_keys map fst] in *. inversion H as [|x l Hx Hl]; subst.
    constructor; [|now apply IH].
    intros I. apply in_dict_keys_set in I. destruct I as [-> | I].
    + now rewrite String.eqb_refl in E.
    + contradiction.
Qed.

Lemma length_dict_set (k : string) (v : V) d :
  (List.length (dict_set k v d) <= S (List.length d))%nat.
Proof.
  induction d as [|[k0 v0] d IH]; cbn [dict_set]; [cbn; lia|].
  destruct (String.eqb k0 k); cbn [List.length]; lia.
Qed.

End DictMore.

Section LoopMore.

Context {RT : Runtime}.

Lemma record_all_cons md kv entries :
  record_all md (kv :: entries)
  = record_all (dict_set (fst kv) (snd kv) md) entries.
Proof. reflexivity. Qed.

Lemma record_all_app md es1 es2 :
  record_all md (es1 ++ es2)%list = record_all (record_all md es1) es2.
Proof. apply fold_left_app. Qed.

Lemma record_all_NoDup md entries :
  NoDup (dict_keys md) -> NoDup (dict_keys (record_all md entries)).
Proof.
  revert md; induction entries as [|kv es IH]; intros md H; [exact H|].
  rewrite record_all_cons. apply IH. now apply NoDup_dict_set.
Qed.

Lemma record_all_length md entries :
  (List.length (record_all md entries)
   <= List.length md + List.length entries)%nat.
Proof.
  revert md; induction entries as [|kv es IH]; intros md.
  - cbn. lia.
  - rewrite record_all_cons. specialize (IH (dict_set (fst kv) (snd kv) md)).
    pose proof (length_dict_set (fst kv) (snd kv) md). cbn [List.length]. lia.
Qed.

Lemma record_all_in md entries kv :
  In kv (record_all md entries) -> In kv md \/ In kv entries.
Proof.
  revert md; induction entries as [|e es IH]; intros md H; [now left|].
  rewrite record_all_cons in H. destruct (IH _ H) as [H' | H'].
  - apply in_dict_set in H'. destruct H' as [-> | H'].
    + right. left. now destruct e.
    + now left.
  - right. now right.
Qed.

Lemma record_all_keeps_keys md entries k :
  In k (dict_keys md) -> In k (dict_keys (record_all md entries)).
Proof.
  revert md; induction entries as [|e es IH]; intros md H; [exact H|].
  rewrite record_all_cons. apply IH. apply in_dict_keys_set. now right.
Qed.

Lemma record_all_has_keys md entries k :
  In k (map fst entries) -> In k (dict_keys (record_all md entries)).
Proof.
  revert md; induction entries as [|e es IH]; intros md H; [destruct H|].
  rewrite record_all_cons. destruct H as [<- | H].
  - apply record_all_keeps_keys. apply in_dict_keys_set. now left.
  - now apply IH.
Qed.

Lemma record_all_lookup_untouched md entries k :
  ~ In k (map fst entries) ->
  dict_lookup k (record_all md entries) = dict_lookup k md.
Proof.
  revert md; induction entries as [|e es IH]; intros md H; [reflexivity|].
  rewrite record_all_cons, IH.
  - apply dict_lookup_set_other. intros ->. apply H. now left.
  - intros I. apply H. now right.
Qed.

(** The last assignment to a key decides its value. *)
Lemma record_all_last_wins md before k v after :
  ~ In k (map fst after) ->
  dict_lookup k (record_all md (before ++ (k, v) :: after)%list) = Some v.
Proof.
  intros H. rewrite record_all_app, record_all_cons.
  rewrite (record_all_lookup_untouched _ _ _ H).
  apply dict_lookup_set_same.
Qed.

(** The requests behind a row of returned fetches: one per query, each
    with the time the fetches were given. *)
Lemma fetched_all_sent url t qs s latest s' :
  fetched_all url t qs s latest s' ->
  sent s' = (sent s ++ map (request_for url t) qs)%list.
Proof.
  induction 1 as [s|q qs s r s1 rest s' Hf Hrest IH].
  - cbn. now rewrite app_nil_r.
  - destruct (fetch_state _ _ _ _ _ _ Hf) as (w' & ->).
    rewrite IH. cbn. now rewrite <- app_assoc.
Qed.

Lemma fetched_all_length url t qs s latest s' :
  fetched_all url t qs s latest s' -> List.length latest = List.length qs.
Proof. induction 1; cbn; congruence. Qed.

Lemma fetched_all_app_inv url t qs1 qs2 s latest s' :
  fetched_all url t (qs1 ++ qs2)%list s latest s' ->
  exists l1 l2 s1,
    latest = (l1 ++ l2)%list
    /\ fetched_all url t qs1 s l1 s1
    /\ fetched_all url t qs2 s1 l2 s'.
Proof.
  revert s latest; induction qs1 as [|q qs1 IH]; intros s latest H.
  - exists [], latest, s. repeat split; [constructor | exact H].
  - cbn in H. inversion H as [|q0 qs0 s0 r s1 rest s1' Hf Hrest]; subst.
    destruct (IH _ _ Hrest) as (l1 & l2 & s2 & -> & H1 & H2).
    exists (r :: l1), l2, s2. repeat split; [|exact H2].
    econstructor; eassumption.
Qed.

Lemma entries_of_app qs1 qs2 l1 l2 :
  List.length l1 = List.length qs1 ->
  entries_of (qs1 ++ qs2) (l1 ++ l2)
  = (entries_of qs1 l1 ++ entries_of qs2 l2)%list.
Proof.
  revert l1; induction qs1 as [|q qs1 IH]; intros [|r l1] H;
    try discriminate H; [reflexivity|].
  unfold entries_of in *. cbn [app combine map]. f_equal.
  apply IH. now inversion H.
Qed.

Lemma entries_of_in qs latest kv :
  In kv (entries_of qs latest) ->
  exists q r, In q qs /\ kv = entry_of q r.
Proof.
  unfold entries_of. intros H. apply in_map_iff in H.
  destruct H as ([q r] & <- & H). exists q, r. split; [|reflexivity].
  eapply in_combine_l; exact H.
Qed.

Lemma entries_of_length qs latest :
  List.length latest = List.length qs ->
  List.length (entries_of qs latest) = List.length qs.
Proof.
  intros H. unfold entries_of. rewrite length_map, length_combine. lia.
Qed.

(** The loop returns exactly when every fetch returns, and then with the
    entries recorded in order. *)
Lemma for_each_fetched url t qs md s md' s' :
  for_each qs (process_query url t) md s = (Ret md', s')
  <-> exists latest,
        fetched_all url t qs s latest s'
        /\ md' = record_all md (entries_of qs latest).
Proof.
  revert md s; induction qs as [|q qs IH]; intros md s.
  - cbn [for_each]. split.
    + intros H; inversion H; subst. exists []. split; [constructor | reflexivity].
    + intros (latest & H & ->). inversion H; subst. reflexivity.
  - cbn [for_each]. split.
    + intros H. apply bind_Ret_inv in H. destruct H as (md1 & s1 & Hq & Hrest).
      destruct (process_query_cases url t q md s)
        as [(r & s2 & Hf & Hp) | (e & s2 & Hf & Hp)];
        rewrite Hp in Hq; [|discriminate].
      inversion Hq; subst md1 s1; clear Hq.
      apply IH in Hrest. destruct Hrest as (latest & Hall & ->).
      exists (r :: latest). split; [econstructor; eassumption | reflexivity].
    + intros (latest & Hall & ->).
      inversion Hall as [|q0 qs0 s0 r s1 rest s1' Hf Hrest]; subst.
      rewrite (bind_Ret _ _ _ _ _ (process_query_returned _ _ _ md _ _ _ Hf)).
      apply IH. exists rest. split; [exact Hrest | reflexivity].
Qed.

(** A loop that ended the process did so at one query, whose fetch
    raised. *)
Lemma for_each_exit_inv url t qs md s r s' :
  for_each qs (process_query url t) md s = (Exit r, s') ->
  exists done q rest md1 s1 e,
    qs = (done ++ q :: rest)%list
    /\ for_each done (process_query url t) md s = (Ret md1, s1)
    /\ fetch_latest_metric_value q t url s1 = (Raise e, s')
    /\ r = FailJson (exc_msg e).
Proof.
  revert md s; induction qs as [|q qs IH]; intros md s; cbn [for_each].
  - discriminate.
  - intros H.
    destruct (process_query_cases url t q md s)
      as [(latest & s2 & Hf & Hp) | (e & s2 & Hf & Hp)].
    + rewrite (bind_Ret _ _ _ _ _ Hp) in H.
      destruct (IH _ _ H) as (done & q' & rest & md1 & s1 & e & -> & Hd & He & ->).
      exists (q :: done), q', rest, md1, s1, e. repeat split; try assumption.
      cbn [for_each]. now rewrite (bind_Ret _ _ _ _ _ Hp).
    + rewrite (bind_Exit _ _ _ _ _ Hp) in H. inversion H; subst.
      exists [], q, qs, md, s, e. repeat split; assumption.
Qed.

(** [now] spelled out. *)
Lemma now_eq s :
  now s = (Ret (int_of_float (fst (time_time (world s)))),
           {| world := snd (time_time (world s)); sent := sent s |}).
Proof. unfold now. now destruct (time_time (world s)). Qed.

Lemma main_success_iff url qs w changed md s' :
  invoke url qs w = (Exit (ExitJson changed md), s')
  <-> changed = false
      /\ exists latest,
           fetched_all url (int_of_float (fst (time_time w))) qs
             {| world := snd (time_time w); sent := [] |} latest s'
           /\ md = record_all [] (entries_of qs latest).
Proof.
  unfold invoke, main.
  rewrite (bind_Ret _ _ _ _ _ (now_eq {| world := w; sent := [] |})).
  cbn [world sent].
  set (t := int_of_float (fst (time_time w))).
  set (s0 := {| world := snd (time_time w); sent := [] |}).
  destruct (for_each qs (process_query url t) [] s0) as [[md1|e|r] s1] eqn:E.
  - rewrite (bind_Ret _ _ _ _ _ E). unfold exit_json. split.
    + intros H; inversion H; subst. split; [reflexivity|].
      now apply for_each_fetched.
    + intros (-> & Hex). apply for_each_fetched in Hex.
      rewrite E in Hex. now inversion Hex.
  - rewrite (bind_Raise _ _ _ _ _ E). split; [discriminate|].
    intros (_ & Hex). apply for_each_fetched in Hex. rewrite E in Hex.
    discriminate.
  - rewrite (bind_Exit _ _ _ _ _ E). split.
    + intros H; inversion H; subst.
      destruct (for_each_exit_inv _ _ _ _ _ _ _ E)
        as (? & ? & ? & ? & ? & ? & _ & _ & _ & Hr). discriminate.
    + intros (_ & Hex). apply for_each_fetched in Hex. rewrite E in Hex.
      discriminate.
Qed.

End LoopMore.

(* ================================================================== *)
(** ** The timestamp of a batch *)

Section TimestampClaim.

Context {RT : Runtime}.

(** C7.  The clock is read once, when the invocation starts, and the
    integer [end_time] made of that reading is what every fetch of the
    batch is called with and what every request carries as its [time]
    parameter.  The invocation goes one of two ways.  Either the fetches
    of all the queries return, one after the other from the state left by
    the reading of the clock, each called with [end_time]: then the report
    is a success and the requests sent are those of all the queries, in
    order, at [end_time].  Or the fetches of the first queries return and
    the fetch of the next one, called with [end_time] too, raises: then
    the report is a failure and the requests sent are those of these
    queries, the failing one included, at [end_time]. *)
Theorem batch_shares_one_timestamp url queries w :
  let end_time := int_of_float (fst (time_time w)) in
  let after_clock := {| world := snd (time_time w); sent := [] |} in
  let run := invoke url queries w in
  Forall (fun r => p_time (req_params r) = end_time) (sent (snd run))
  /\ ((exists md latest,
         fst run = Exit (ExitJson false md)
         /\ fetched_all url end_time queries after_clock latest (snd run)
         /\ sent (snd run) = map (request_for url end_time) queries)
      \/ (exists done q rest latest s e,
            queries = (done ++ q :: rest)%list
            /\ fetched_all url end_time done after_clock latest s
            /\ fetch_latest_metric_value q end_time url s
               = (Raise e, snd run)
            /\ fst run = Exit (FailJson (exc_msg e))
            /\ sent (snd run)
               = map (request_for url end_time) (done ++ [q])%list)).
Proof.
  intros end_time after_clock run.
  assert (H :
    (exists md latest,
       fst run = Exit (ExitJson false md)
       /\ fetched_all url end_time queries after_clock latest (snd run)
       /\ sent (snd run) = map (request_for url end_time) queries)
    \/ (exists done q rest latest s e,
          queries = (done ++ q :: rest)%list
          /\ fetched_all url end_time done after_clock latest s
          /\ fetch_latest_metric_value q end_time url s
             = (Raise e, snd run)
          /\ fst run = Exit (FailJson (exc_msg e))
          /\ sent (snd run)
             = map (request_for url end_time) (done ++ [q])%list)).
  { subst run. unfold invoke, main.
    rewrite (bind_Ret _ _ _ _ _ (now_eq {| world := w; sent := [] |})).
    cbn [world sent]. fold end_time. fold after_clock.
    destruct (for_each queries (process_query url end_time) [] after_clock)
      as [[md|e|r] s1] eqn:E.
    - left. rewrite (bind_Ret _ _ _ _ _ E). unfold exit_json. cbn [fst snd].
      apply for_each_fetched in E. destruct E as (latest & Hall & _).
      exists md, latest. repeat split; try assumption.
      now rewrite (fetched_all_sent _ _ _ _ _ _ Hall).
    - destruct (for_each_outcome url end_time queries [] after_clock)
        as (n & s2 & _ & _ & [(md & Hr & _) | (msg & Hr)]);
        rewrite E in Hr; discriminate Hr.
    - right. rewrite (bind_Exit _ _ _ _ _ E). cbn [fst snd].
      destruct (for_each_exit_inv _ _ _ _ _ _ _ E)
        as (done & q & rest & md1 & s & e & Hq & Hdone & Hraise & ->).
      apply for_each_fetched in Hdone. destruct Hdone as (latest & Hall & _).
      exists done, q, rest, latest, s, e. repeat split; try assumption.
      destruct (fetch_state _ _ _ _ _ _ Hraise) as (w' & ->).
      cbn [after_request sent].
      rewrite (fetched_all_sent _ _ _ _ _ _ Hall), map_app.
      reflexivity. }
  split; [|exact H].
  assert (S : exists qs,
             sent (snd run) = map (request_for url end_time) qs).
  { destruct H as [(md & latest & _ & _ & Hs)
                  | (done & q & rest & latest & s & e & _ & _ & _ & _ & Hs)];
      eexists; exact Hs. }
  destruct S as (qs & ->).
  apply Forall_forall. intros r Hin.
  apply in_map_iff in Hin. destruct Hin as (q0 & <- & _). reflexivity.
Qed.

End TimestampClaim.

(* ================================================================== *)
(** ** The batch: success, failure and the mapping *)

Section BatchProperties.

Context {RT : Runtime}.

Lemma fetched_all_entry url t qs s latest s' q :
  fetched_all url t qs s latest s' ->
  In q qs ->
  exists r, In (entry_of q r) (entries_of qs latest).
Proof.
  induction 1 as [|q0 qs s r s1 rest s' Hf Hrest IH]; intros Hin.
  - destruct Hin.
  - destruct Hin as [-> | Hin].
    + exists r. now left.
    + destruct (IH Hin) as (r' & H'). exists r'. now right.
Qed.

(** The keys two queries can get differ when the queries do not
    collide. *)
Lemma distinct_keys_result_key q q' r r' :
  distinct_keys q q' = true -> result_key q r <> result_key q' r'.
Proof.
  unfold distinct_keys. intros H.
  apply andb_true_iff in H. destruct H as [H12 H3].
  apply andb_true_iff in H12. destruct H12 as [H1 H2].
  apply negb_true_iff, String.eqb_neq in H1, H2, H3.
  destruct r, r'; cbn [result_key]; congruence.
Qed.

(** X12.  An empty list of queries is a successful batch: the report is
    [changed = false] with an empty mapping, and nothing is sent. *)
Theorem empty_batch_succeeds url w :
  fst (invoke url [] w) = Exit (ExitJson false [])
  /\ sent (snd (invoke url [] w)) = [].
Proof.
  unfold invoke, main.
  rewrite (bind_Ret _ _ _ _ _ (now_eq {| world := w; sent := [] |})).
  split; reflexivity.
Qed.

(** X13.  The invocation succeeds exactly when the fetch of every query
    returns, one after the other from the state left by the reading of the
    clock; the report then has [changed = false] and the mapping obtained
    by assigning the entries of the queries in order, collisions
    included. *)
Theorem success_iff_all_fetched url queries w changed md s' :
  invoke url queries w = (Exit (ExitJson changed md), s')
  <-> changed = false
      /\ exists latest,
           fetched_all url (int_of_float (fst (time_time w))) queries
             {| world := snd (time_time w); sent := [] |} latest s'
           /\ md = record_all [] (entries_of queries latest).
Proof. apply main_success_iff. Qed.

(** X14.  The mapping of a successful invocation, with or without
    collisions among the queries: no key occurs twice, there are at most as
    many entries as queries, and every entry is the entry of one of the
    queries (its sanitized form with a float, or the query itself with the
    "no data" text). *)
Theorem result_mapping_invariant url queries w changed md s' :
  invoke url queries w = (Exit (ExitJson changed md), s') ->
  NoDup (dict_keys md)
  /\ (List.length md <= List.length queries)%nat
  /\ Forall
       (fun kv =>
          exists q,
            In q queries
            /\ ((exists f, kv = (Sanitize.sanitize_query q, MFloat f))
                \/ kv = (q, MStr
                              "No data available for the specified time range.")))
       md.
Proof.
  intros H. apply main_success_iff in H.
  destruct H as (_ & latest & Hall & ->).
  split; [|split].
  - apply record_all_NoDup. constructor.
  - pose proof (record_all_length [] (entries_of queries latest)) as L.
    rewrite entries_of_length in L
      by (eapply fetched_all_length; eassumption).
    exact L.
  - apply Forall_forall. intros kv Hin.
    apply record_all_in in Hin. destruct Hin as [[] | Hin].
    apply entries_of_in in Hin. destruct Hin as (q & r & Hq & ->).
    exists q. split; [exact Hq|].
    destruct r as [f|]; [left; now exists f | now right].
Qed.

(** X15.  No query of a successful invocation is left out: the query
    itself or its sanitized form is a key of the mapping. *)
Theorem every_query_has_a_key url queries w changed md s' q :
  invoke url queries w = (Exit (ExitJson changed md), s') ->
  In q queries ->
  In q (dict_keys md) \/ In (Sanitize.sanitize_query q) (dict_keys md).
Proof.
  intros H Hq. apply main_success_iff in H.
  destruct H as (_ & latest & Hall & ->).
  destruct (fetched_all_entry _ _ _ _ _ _ _ Hall Hq) as (r & Hin).
  assert (K : In (result_key q r)
                (dict_keys (record_all [] (entries_of queries latest)))).
  { apply record_all_has_keys. apply in_map_iff.
    exists (entry_of q r). split; [reflexivity | exact Hin]. }
  destruct r; [now right | now left].
Qed.

(** X16.  The later query wins: in a successful invocation, a query that
    collides with none of the queries after it has in the mapping the
    entry of what its own fetch returned in this run (its sanitized form
    with the float fetched, or itself with the "no data" text), whatever
    the queries before it put under the same key. *)
Theorem later_query_wins url before q after w changed md s' :
  invoke url (before ++ q :: after) w = (Exit (ExitJson changed md), s') ->
  forallb (distinct_keys q) after = true ->
  exists fetched_before s latest_value s1,
    fetched_all url (int_of_float (fst (time_time w))) before
      {| world := snd (time_time w); sent := [] |} fetched_before s
    /\ fetch_latest_metric_value q (int_of_float (fst (time_time w))) url s
       = (Ret latest_value, s1)
    /\ match latest_value with
       | Some f =>
           dict_lookup (Sanitize.sanitize_query q) md = Some (MFloat f)
       | None =>
           dict_lookup q md
           = Some (MStr "No data available for the specified time range.")
       end.
Proof.
  intros H Hafter. apply main_success_iff in H.
  destruct H as (_ & latest & Hall & ->).
  destruct (fetched_all_app_inv _ _ _ _ _ _ _ Hall)
    as (l1 & l2 & s1 & -> & H1 & H2).
  inversion H2 as [|q0 qs0 s0 r s2 l3 s3 Hf Hrest]; subst.
  exists l1, s1, r, s2. split; [exact H1|]. split; [exact Hf|].
  rewrite entries_of_app by (eapply fetched_all_length; eassumption).
  change (entries_of (q :: after) (r :: l3))
    with (entry_of q r :: entries_of after l3).
  assert (L : dict_lookup (result_key q r)
                (record_all []
                   (entries_of before l1
                    ++ (result_key q r, result_value r)
                       :: entries_of after l3))
              = Some (result_value r)).
  { apply record_all_last_wins. intros I. apply in_map_iff in I.
    destruct I as (kv & Hk & Hin).
    apply entries_of_in in Hin. destruct Hin as (q' & r' & Hq' & ->).
    rewrite forallb_forall in Hafter.
    apply (distinct_keys_result_key q q' r r' (Hafter q' Hq')).
    symmetry. exact Hk. }
  unfold entry_of. destruct r as [f|]; exact L.
Qed.

(** X17.  A failure report always comes from a query: when the invocation
    fails with [msg], the queries before some query were processed without
    failure, the fetch of that query raised, and [msg] is the text of what
    it raised.  The module has no other way to fail. *)
Theorem failure_comes_from_a_query url queries w msg s' :
  invoke url queries w = (Exit (FailJson msg), s') ->
  exists done q rest md s e,
    queries = (done ++ q :: rest)%list
    /\ processed url done w (int_of_float (fst (time_time w))) md s
    /\ fetch_latest_metric_value q (int_of_float (fst (time_time w))) url s
       = (Raise e, s')
    /\ msg = exc_msg e.
Proof.
  unfold invoke, main.
  pose proof (now_eq {| world := w; sent := [] |}) as Hnow.
  cbn [world sent] in Hnow.
  rewrite (bind_Ret _ _ _ _ _ Hnow).
  set (t := int_of_float (fst (time_time w))) in *.
  set (s0 := {| world := snd (time_time w); sent := [] |}) in *.
  destruct (for_each queries (process_query url t) [] s0)
    as [[md1|e|r] s1] eqn:E.
  - rewrite (bind_Ret _ _ _ _ _ E). discriminate.
  - rewrite (bind_Raise _ _ _ _ _ E). discriminate.
  - rewrite (bind_Exit _ _ _ _ _ E). intros H; inversion H; subst r s1.
    destruct (for_each_exit_inv _ _ _ _ _ _ _ E)
      as (done & q & rest & md1 & s1 & e & -> & Hd & He & Hr).
    inversion Hr; subst msg.
    exists done, q, rest, md1, s1, e. repeat split; try assumption.
    exists s0. split; assumption.
Qed.

End BatchProperties.

(* ================================================================== *)
(** ** The further properties on the scripted server *)

Section MoreRuns.

Import Scripted.

Local Existing Instance Scripted.runtime.

(** A ["value"] of three elements with a JSON number as the sample, and a
    second entry that is [null]. *)
Lemma fetch_found_iff_witness :
  fst (fetch_latest_metric_value "up" epoch url
         (standing
            (running
               [ok (with_result
                      (PList [entry_with
                                (PList [PInt epoch; PFloat two_and_a_half;
                                        PStr "extra"]);
                              PNone]))])
            []))
  = Ret (Some two_and_a_half).
Proof.
  apply (proj2
           (fetch_found_iff (RT := runtime) url epoch "up"
              (standing
                 (running
                    [ok (with_result
                           (PList [entry_with
                                     (PList [PInt epoch;
                                             PFloat two_and_a_half;
                                             PStr "extra"]);
                                   PNone]))])
                 [])
              (with_result
                 (PList [entry_with
                           (PList [PInt epoch; PFloat two_and_a_half;
                                   PStr "extra"]);
                         PNone]))
              (running []) two_and_a_half
              ltac:(eexists; repeat split; reflexivity))).
  exists [("metric", PDict []);
          ("value", PList [PInt epoch; PFloat two_and_a_half; PStr "extra"])],
    [PNone],
    (PList [PInt epoch; PFloat two_and_a_half; PStr "extra"]),
    (PFloat two_and_a_half).
  repeat split; reflexivity.
Defined.

(** A result that is [null]. *)
Lemma fetch_absent_iff_witness :
  fst (fetch_latest_metric_value "up" epoch url
         (standing (running [ok (with_result PNone)]) []))
  = Ret None.
Proof.
  apply (proj2
           (fetch_absent_iff (RT := runtime) url epoch "up"
              (standing (running [ok (with_result PNone)]) [])
              (with_result PNone) (running [])
              ltac:(eexists; repeat split; reflexivity))).
  exists (PDict [("result", PNone)]), PNone.
  repeat split; reflexivity.
Defined.

(** The same first entry, alone and followed by another. *)
Lemma only_first_entry_counts_witness :
  fst (fetch_latest_metric_value "up" epoch url
         (standing
            (running
               [ok (with_result
                      (PList [entry_with (PList [PInt epoch; PStr "1"])]))])
            []))
  = fst (fetch_latest_metric_value "up" epoch url
           (standing
              (running
                 [ok (with_result
                        (PList [entry_with (PList [PInt epoch; PStr "1"]);
                                entry_with (PList [PInt epoch; PStr "0"])]))])
              [])).
Proof.
  apply (only_first_entry_counts (RT := runtime) url epoch "up"
           (standing
              (running
                 [ok (with_result
                        (PList [entry_with (PList [PInt epoch; PStr "1"])]))])
              [])
           (standing
              (running
                 [ok (with_result
                        (PList [entry_with (PList [PInt epoch; PStr "1"]);
                                entry_with (PList [PInt epoch; PStr "0"])]))])
              [])
           (with_result (PList [entry_with (PList [PInt epoch; PStr "1"])]))
           (with_result
              (PList [entry_with (PList [PInt epoch; PStr "1"]);
                      entry_with (PList [PInt epoch; PStr "0"])]))
           (running []) (running [])
           (entry_with (PList [PInt epoch; PStr "1"]))
           [] [entry_with (PList [PInt epoch; PStr "0"])]).
  - eexists. repeat split; reflexivity.
  - eexists. repeat split; reflexivity.
  - reflexivity.
  - reflexivity.
Defined.

(** A body that is a list. *)
Lemma non_object_body_raises_witness :
  exists e,
    fetch_latest_metric_value "up" epoch url
      (standing (running [ok (PList [])]) [])
    = (Raise e,
       after_request url epoch "up"
         (standing (running [ok (PList [])]) []) (running []))
    /\ exc_cls e = AttributeError.
Proof.
  apply (non_object_body_raises (RT := runtime) url epoch "up"
           (standing (running [ok (PList [])]) []) (PList []) (running [])).
  - eexists. repeat split; reflexivity.
  - left. reflexivity.
Defined.

(** A sample that is [null]. *)
Lemma unconvertible_sample_raises_witness :
  fetch_latest_metric_value "up" epoch url
    (standing
       (running
          [ok (with_result (PList [entry_with (PList [PInt epoch; PNone])]))])
       [])
  = (Raise (Exc TypeError "TypeError"),
     after_request url epoch "up"
       (standing
          (running
             [ok (with_result
                    (PList [entry_with (PList [PInt epoch; PNone])]))])
          [])
       (running []))
  /\ exc_cls (Exc TypeError "TypeError") = TypeError.
Proof.
  apply (unconvertible_sample_raises (RT := runtime) url epoch "up"
           (standing
              (running
                 [ok (with_result
                        (PList [entry_with (PList [PInt epoch; PNone])]))])
              [])
           (with_result (PList [entry_with (PList [PInt epoch; PNone])]))
           (running [])
           [("metric", PDict []); ("value", PList [PInt epoch; PNone])]
           [] (PList [PInt epoch; PNone]) PNone
           (Exc TypeError "TypeError")).
  - eexists. repeat split; reflexivity.
  - reflexivity.
  - reflexivity.
  - reflexivity.
  - reflexivity.
Defined.

(** A body that is no JSON: [json()] raises, and so does the fetch. *)
Lemma exceptions_pass_through_witness :
  fetch_latest_metric_value "up" epoch url
    (standing
       (running
          [inr {| status_code := 200;
                  body := inl (Exc JSONDecodeError "Expecting value") |}])
       [])
  = (Raise (Exc JSONDecodeError "Expecting value"),
     after_request url epoch "up"
       (standing
          (running
             [inr {| status_code := 200;
                     body := inl (Exc JSONDecodeError "Expecting value") |}])
          [])
       (running [])).
Proof.
  apply (exceptions_pass_through (RT := runtime) url epoch "up"
           (standing
              (running
                 [inr {| status_code := 200;
                         body := inl (Exc JSONDecodeError "Expecting value") |}])
              [])
           (Exc JSONDecodeError "Expecting value") (running [])).
  right. eexists. repeat split; reflexivity.
Defined.

(** A result that is the number 7. *)
Lemma malformed_result_raises_witness :
  exists e,
    fetch_latest_metric_value "up" epoch url
      (standing (running [ok (with_result (PInt 7))]) [])
    = (Raise e,
       after_request url epoch "up"
         (standing (running [ok (with_result (PInt 7))]) []) (running []))
    /\ (exc_cls e = TypeError \/ exc_cls e = KeyError).
Proof.
  apply (malformed_result_raises (RT := runtime) url epoch "up"
           (standing (running [ok (with_result (PInt 7))]) [])
           (with_result (PInt 7)) (running [])
           (PDict [("result", PInt 7)]) (PInt 7)).
  - eexists. repeat split; reflexivity.
  - reflexivity.
  - reflexivity.
  - reflexivity.
  - reflexivity.
Defined.

(** Three queries, the first two with the same sanitized form. *)
Lemma result_mapping_invariant_witness :
  NoDup
    (dict_keys
       [("a_b", MFloat (RT := runtime) zero);
        ("up", MStr "No data available for the specified time range.")])
  /\ (List.length
        [("a_b", MFloat (RT := runtime) zero);
         ("up", MStr "No data available for the specified time range.")]
      <= List.length ["a:b"; "a.b"; "up"])%nat
  /\ Forall
       (fun kv =>
          exists q,
            In q ["a:b"; "a.b"; "up"]
            /\ ((exists f, kv = (Sanitize.sanitize_query q, MFloat f))
                \/ kv = (q, MStr
                              "No data available for the specified time range.")))
       [("a_b", MFloat (RT := runtime) zero);
        ("up", MStr "No data available for the specified time range.")].
Proof.
  apply (result_mapping_invariant (RT := runtime) url ["a:b"; "a.b"; "up"]
           (boot [ok (one_sample epoch "1"); ok (one_sample epoch "0");
                  ok no_sample])
           false
           [("a_b", MFloat (RT := runtime) zero);
            ("up", MStr "No data available for the specified time range.")]
           (standing (running []) [asked "a:b"; asked "a.b"; asked "up"])).
  reflexivity.
Defined.

Lemma every_query_has_a_key_witness :
  In "a:b"
    (dict_keys
       [("a_b", MFloat (RT := runtime) zero);
        ("up", MStr "No data available for the specified time range.")])
  \/ In (Sanitize.sanitize_query "a:b")
       (dict_keys
          [("a_b", MFloat (RT := runtime) zero);
           ("up", MStr "No data available for the specified time range.")]).
Proof.
  apply (every_query_has_a_key (RT := runtime) url ["a:b"; "a.b"; "up"]
           (boot [ok (one_sample epoch "1"); ok (one_sample epoch "0");
                  ok no_sample])
           false
           [("a_b", MFloat (RT := runtime) zero);
            ("up", MStr "No data available for the specified time range.")]
           (standing (running []) [asked "a:b"; asked "a.b"; asked "up"])
           "a:b").
  - reflexivity.
  - left. reflexivity.
Defined.

Lemma later_query_wins_witness :
  exists fetched_before s latest_value s1,
    fetched_all (RT := runtime) url
      (int_of_float
         (fst (time_time
                 (boot [ok (one_sample epoch "1"); ok (one_sample epoch "0");
                        ok no_sample]))))
      ["a:b"]
      {| world :=
           snd (time_time
                  (boot [ok (one_sample epoch "1"); ok (one_sample epoch "0");
                         ok no_sample]));
         sent := [] |}
      fetched_before s
    /\ fetch_latest_metric_value "a.b"
         (int_of_float
            (fst (time_time
                    (boot [ok (one_sample epoch "1");
                           ok (one_sample epoch "0"); ok no_sample]))))
         url s
       = (Ret latest_value, s1)
    /\ match latest_value with
       | Some f =>
           dict_lookup (Sanitize.sanitize_query "a.b")
             [("a_b", MFloat (RT := runtime) zero);
              ("up", MStr "No data available for the specified time range.")]
           = Some (MFloat f)
       | None =>
           dict_lookup "a.b"
             [("a_b", MFloat (RT := runtime) zero);
              ("up", MStr "No data available for the specified time range.")]
           = Some (MStr "No data available for the specified time range.")
       end.
Proof.
  apply (later_query_wins (RT := runtime) url ["a:b"] "a.b" ["up"]
           (boot [ok (one_sample epoch "1"); ok (one_sample epoch "0");
                  ok no_sample])
           false
           [("a_b", MFloat (RT := runtime) zero);
            ("up", MStr "No data available for the specified time range.")]
           (standing (running []) [asked "a:b"; asked "a.b"; asked "up"])).
  - reflexivity.
  - reflexivity.
Defined.

(** In that run the second query fetched 0.0 and the first 1.0: the entry
    under their common key is the second query's. *)
Example later_value_is_stored :
  fst (fetch_latest_metric_value "a:b" epoch url
         (standing
            (running [ok (one_sample epoch "1"); ok (one_sample epoch "0");
                      ok no_sample]) []))
  = Ret (Some one)
  /\ fst (fetch_latest_metric_value "a.b" epoch url
            (standing
               (running [ok (one_sample epoch "0"); ok no_sample])
               [asked "a:b"]))
     = Ret (Some zero)
  /\ fst (invoke (RT := runtime) url ["a:b"; "a.b"; "up"]
            (boot [ok (one_sample epoch "1"); ok (one_sample epoch "0");
                   ok no_sample]))
     = Exit (ExitJson false
               [("a_b", MFloat (RT := runtime) zero);
                ("up", MStr "No data available for the specified time range.")]).
Proof. repeat split; reflexivity. Qed.

(** A batch that fails at its second query. *)
Lemma failure_comes_from_a_query_witness :
  exists done q rest md s e,
    ["up"; "node:load.1"; "x"] = (done ++ q :: rest)%list
    /\ processed (RT := runtime) url done
         (boot [ok (one_sample epoch "1"); status 503; ok no_sample])
         (int_of_float
            (fst (time_time
                    (boot [ok (one_sample epoch "1"); status 503;
                           ok no_sample]))))
         md s
    /\ fetch_latest_metric_value q
         (int_of_float
            (fst (time_time
                    (boot [ok (one_sample epoch "1"); status 503;
                           ok no_sample]))))
         url s
       = (Raise e,
          standing (running [ok no_sample]) [asked "up"; asked "node:load.1"])
    /\ "HTTP error" = exc_msg e.
Proof.
  apply (failure_comes_from_a_query (RT := runtime) url
           ["up"; "node:load.1"; "x"]
           (boot [ok (one_sample epoch "1"); status 503; ok no_sample])
           "HTTP error"
           (standing (running [ok no_sample])
              [asked "up"; asked "node:load.1"])).
  reflexivity.
Defined.

(** The statuses the scripted [raise_for_status] refuses are those of
    [requests]: 400 to 599. *)
Lemma scripted_error_statuses (r : reply) :
  error_status r <> None <-> (400 <= status_code r < 600)%Z.
Proof.
  unfold error_status.
  destruct (400 <=? status_code r)%Z eqn:E1;
    destruct (status_code r <? 600)%Z eqn:E2; cbn [andb];
    rewrite ?Z.leb_le, ?Z.leb_gt, ?Z.ltb_lt, ?Z.ltb_ge in *;
    split; intros H; try lia; try discriminate; try (now elim H).
Qed.

(** C4 as the specification states it does not hold for every status
    outside 2xx.  The second query is answered with status 300, which
    [raise_for_status] lets through: there is no transport error, the body
    is read as that of any answer, and the invocation succeeds with the
    mapping of both queries. *)
Lemma status_300_is_no_transport_error :
  error_status {| status_code := 300; body := inr no_sample |} = None
  /\ (forall e w',
        ~ transport_error (RT := runtime) url epoch "node:load.1"
            (running [status 300]) e w')
  /\ invoke (RT := runtime) url ["up"; "node:load.1"]
       (boot [ok (one_sample epoch "1"); status 300])
     = (Exit (ExitJson false
                [("up", MFloat (RT := runtime) one);
                 ("node:load.1",
                  MStr "No data available for the specified time range.")]),
        standing (running []) [asked "up"; asked "node:load.1"])
  /\ ~ (exists msg,
          fst (invoke (RT := runtime) url ["up"; "node:load.1"]
                 (boot [ok (one_sample epoch "1"); status 300]))
          = Exit (FailJson msg)).
Proof.
  split; [reflexivity|]. split; [|split].
  - intros e w' H.
    inversion H as [e0 w0 Hget _ | response msg w0 Hget Hstatus];
      cbn in Hget; inversion Hget; subst.
    cbn in Hstatus. discriminate Hstatus.
  - reflexivity.
  - intros (msg & H). discriminate H.
Qed.

(** Other statuses outside 2xx that are let through, and the two ends of
    the range that is refused. *)
Example statuses_let_through_and_refused :
  map (fun code =>
         fst (invoke (RT := runtime) url ["up"] (boot [status code])))
    [100; 304; 399; 600]%Z
  = map (fun _ =>
           Exit (ExitJson false
                   [("up",
                     MStr "No data available for the specified time range.")]))
      [100; 304; 399; 600]%Z
  /\ map (fun code =>
            fst (invoke (RT := runtime) url ["up"] (boot [status code])))
       [400; 404; 503; 599]%Z
     = map (fun _ => Exit (FailJson "HTTP error")) [400; 404; 503; 599]%Z.
Proof. split; reflexivity. Qed.

(** A batch of two queries: both requests carry the one reading of the
    clock. *)
Lemma batch_shares_one_timestamp_witness :
  sent (snd (invoke (RT := runtime) url ["up"; "node:load.1"]
               (boot [ok (one_sample epoch "1"); ok no_sample])))
  = [asked "up"; asked "node:load.1"]
  /\ Forall (fun r => p_time (req_params r) = epoch)
       [asked "up"; asked "node:load.1"].
Proof.
  split; [reflexivity|].
  exact (proj1
           (batch_shares_one_timestamp (RT := runtime) url
              ["up"; "node:load.1"]
              (boot [ok (one_sample epoch "1"); ok no_sample]))).
Defined.

End MoreRuns.
